(** * OpenAPI validation middleware for gin: request and response paths

    A shallow embedding of the package [ginmiddleware]
    (oapi_validate_response.go, oapi_validate.go, utils.go, context.go and
    the type declarations), together with the parts of gin, net/http,
    errors and kin-openapi that the package calls into. *)

From Stdlib Require Import ZArith List String Ascii Bool.
From Stdlib.Strings Require Import Byte.
From stdpp Require Import base gmap strings.
Import ListNotations.

Local Open Scope string_scope.
Local Open Scope Z_scope.
Local Open Scope list_scope.

(** ** Go values *)

(** A Go function either returns or panics. *)
Inductive result (A : Type) : Type :=
| Ret (a : A)
| Panic (v : string).
Arguments Ret {A} a.
Arguments Panic {A} v.

Definition bind {A B : Type} (r : result A) (k : A -> result B) : result B :=
  match r with
  | Ret a => k a
  | Panic v => Panic v
  end.

Notation "'call' x <- r 'in' k" := (bind r (fun x => k))
  (at level 10, x pattern, r at level 100, k at level 200).

(** [[]byte] and [bytes.Buffer] contents. *)
Abbreviation bytes := (list byte).

(** [[]byte(s)] *)
Definition bytes_of_string (s : string) : bytes := list_byte_of_string s.

(** ** Errors

    The dynamic types an [error] interface value can have in this package.
    [errorString] is what [errors.New] and [fmt.Errorf] without a [%w] verb
    build; [wrapError] is [fmt.Errorf] with [%w].  For the error structs of
    kin-openapi, [text] is what the value's [Error()] method returns and
    [unwrap] lists the errors it exposes through [Unwrap] (none, one, or
    several).  [foreignError] stands for every other dynamic type. *)
#[warnings="-register-all"]
Inductive error : Type :=
| errorString (s : string)
| wrapError (msg : string) (err : error)
| RouteError (Reason : string)
| MultiError (errs : list error)
| RequestError (text : string) (unwrap : list error)
| ResponseError (text : string) (unwrap : list error)
| SecurityRequirementsError (text : string) (unwrap : list error)
| foreignError (text : string) (unwrap : list error).

(** [errors.New] *)
Definition errors_New (text : string) : error := errorString text.

(** openapi3: [spliceErr(sep, errs)], over the texts of the errors. *)
Fixpoint spliceErr (sep : string) (errs : list string) : string :=
  match errs with
  | [] => ""
  | [e] => e
  | e :: rest => e +:+ sep +:+ spliceErr sep rest
  end.

(** The [Error()] method.  [openapi3.MultiError.Error] is
    [spliceErr(" | ", me)]; [*routers.RouteError.Error] returns [Reason]. *)
Fixpoint Error (e : error) : string :=
  match e with
  | errorString s => s
  | wrapError msg _ => msg
  | RouteError Reason => Reason
  | MultiError errs => spliceErr " | " (map Error errs)
  | RequestError text _ => text
  | ResponseError text _ => text
  | SecurityRequirementsError text _ => text
  | foreignError text _ => text
  end.

(** [errors.Unwrap], for the one type of this package that has a cause. *)
Definition Unwrap (e : error) : option error :=
  match e with
  | wrapError _ err => Some err
  | _ => None
  end.

(** [errors.As(err, &me)] with [me] of type [openapi3.MultiError]: the first
    value of that type on the unwrap tree of [err], depth first. *)
Fixpoint errors_As_MultiError (err : error) : option (list error) :=
  let first :=
    fix first (l : list error) : option (list error) :=
      match l with
      | [] => None
      | e :: rest =>
          match errors_As_MultiError e with
          | Some me => Some me
          | None => first rest
          end
      end in
  match err with
  | MultiError errs => Some errs
  | wrapError _ e => errors_As_MultiError e
  | RequestError _ u => first u
  | ResponseError _ u => first u
  | SecurityRequirementsError _ u => first u
  | foreignError _ u => first u
  | errorString _ => None
  | RouteError _ => None
  end.

(** ** Strings *)

(** [strings.Split(s, sep)] for a separator of one byte (the package only
    splits on a line feed). *)
Fixpoint strings_Split (s : string) (sep : ascii) : list string :=
  match s with
  | EmptyString => [EmptyString]
  | String ch rest =>
      if Ascii.eqb ch sep then EmptyString :: strings_Split rest sep
      else match strings_Split rest sep with
           | [] => [String ch EmptyString]
           | line :: lines => String ch line :: lines
           end
  end.

(** Line feed, the separator written ["\n"] in the source. *)
Definition LF : ascii := ascii_of_nat 10.

(** Index expression [l[i]]: panics when out of range. *)
Definition index {A : Type} (l : list A) (i : nat) : result A :=
  match nth_error l i with
  | Some a => Ret a
  | None => Panic "runtime error: index out of range"
  end.

(** [true] when the byte [ch] occurs in [s]. *)
Fixpoint contains_byte (ch : ascii) (s : string) : bool :=
  match s with
  | EmptyString => false
  | String x rest => Ascii.eqb x ch || contains_byte ch rest
  end.

(** ** net/http

    The transport side of a response, as the client observes it: the status
    line and header block are fixed by the first [WriteHeader]; the body is
    the sequence of payloads accepted by [Write].  [fault], when set, is the
    error every [Write] of body bytes returns (a closed connection). *)
Module http.

Abbreviation Header := (gmap string (list string)).

Definition StatusOK : Z := 200.
Definition StatusBadRequest : Z := 400.
Definition StatusInternalServerError : Z := 500.

Record ResponseWriter : Type := mkResponseWriter {
  header : Header;
  wroteHeader : option (Z * Header);
  writes : list bytes;
  fault : option error
}.

Definition SetHeader (f : Header -> Header) (w : ResponseWriter) : ResponseWriter :=
  mkResponseWriter (f (header w)) (wroteHeader w) (writes w) (fault w).

Definition WriteHeader (code : Z) (w : ResponseWriter) : ResponseWriter :=
  match wroteHeader w with
  | Some _ => w
  | None => mkResponseWriter (header w) (Some (code, header w)) (writes w) (fault w)
  end.

Definition Write (data : bytes) (w : ResponseWriter) : ResponseWriter * (Z * option error) :=
  let w := WriteHeader StatusOK w in
  match fault w with
  | Some err => (w, (0, Some err))
  | None =>
      (mkResponseWriter (header w) (wroteHeader w) (writes w ++ [data]) (fault w),
       (Z.of_nat (length data), None))
  end.

Definition Flush (w : ResponseWriter) : ResponseWriter := WriteHeader StatusOK w.

(** The body the client has received. *)
Definition body (w : ResponseWriter) : bytes := concat (writes w).

End http.

(** ** gin: response_writer.go *)
Module gin.

Definition noWritten : Z := -1.
Definition defaultStatus : Z := http.StatusOK.

Record responseWriter : Type := mkResponseWriter {
  ResponseWriter : http.ResponseWriter;
  size : Z;
  status : Z
}.

Definition Written (w : responseWriter) : bool := negb (size w =? noWritten).

Definition WriteHeader (code : Z) (w : responseWriter) : responseWriter :=
  if (0 <? code) && negb (status w =? code) then
    if Written w then w
    else mkResponseWriter (ResponseWriter w) (size w) code
  else w.

Definition WriteHeaderNow (w : responseWriter) : responseWriter :=
  if negb (Written w) then
    mkResponseWriter (http.WriteHeader (status w) (ResponseWriter w)) 0 (status w)
  else w.

Definition Write (data : bytes) (w : responseWriter) : responseWriter * (Z * option error) :=
  let w := WriteHeaderNow w in
  let '(rw, (n, err)) := http.Write data (ResponseWriter w) in
  (mkResponseWriter rw (size w + n) (status w), (n, err)).

Definition WriteString (s : string) (w : responseWriter) : responseWriter * (Z * option error) :=
  let w := WriteHeaderNow w in
  let '(rw, (n, err)) := http.Write (bytes_of_string s) (ResponseWriter w) in
  (mkResponseWriter rw (size w + n) (status w), (n, err)).

Definition Flush (w : responseWriter) : responseWriter :=
  let w := WriteHeaderNow w in
  mkResponseWriter (http.Flush (ResponseWriter w)) (size w) (status w).

Definition Header (w : responseWriter) : http.Header := http.header (ResponseWriter w).

Definition SetHeader (f : http.Header -> http.Header) (w : responseWriter) : responseWriter :=
  mkResponseWriter (http.SetHeader f (ResponseWriter w)) (size w) (status w).

(** A writer as [Context.reset] leaves it at the start of a request. *)
Definition reset (rw : http.ResponseWriter) : responseWriter :=
  mkResponseWriter rw noWritten defaultStatus.

(** http.go: [bodyAllowedForStatus] *)
Definition bodyAllowedForStatus (status : Z) : bool :=
  if (100 <=? status) && (status <=? 199) then false
  else if status =? 204 then false
  else if status =? 304 then false
  else true.

(** [gin.H], restricted to string values. *)
Definition H : Type := list (string * string).

End gin.

(** ** The interface [gin.ResponseWriter]

    A value held in [c.Writer]: gin's own writer, or the interceptor of this
    package wrapped around another value of the interface.  The interceptor
    is the struct

      type responseInterceptor struct { gin.ResponseWriter; body *bytes.Buffer }

    so every method but [Write] is the promoted method of the embedded
    writer. *)
Inductive ResponseWriter : Type :=
| ginWriter (w : gin.responseWriter)
| responseInterceptor (embedded : ResponseWriter) (body : bytes).

(** Field selectors [bw.ResponseWriter] and [bw.body] on an interceptor. *)
Definition bw_ResponseWriter (bw : ResponseWriter) : ResponseWriter :=
  match bw with
  | responseInterceptor embedded _ => embedded
  | ginWriter _ => bw
  end.

Definition bw_body (bw : ResponseWriter) : bytes :=
  match bw with
  | responseInterceptor _ body => body
  | ginWriter _ => []
  end.

(** [func (w *responseInterceptor) Write(b []byte) (int, error)] returns
    [w.body.Write(b)]; on gin's writer, gin's method. *)
Definition Write (b : bytes) (w : ResponseWriter) : ResponseWriter * (Z * option error) :=
  match w with
  | ginWriter g => let '(g', r) := gin.Write b g in (ginWriter g', r)
  | responseInterceptor embedded body =>
      (responseInterceptor embedded (body ++ b), (Z.of_nat (length b), None))
  end.

Fixpoint WriteString (s : string) (w : ResponseWriter) : ResponseWriter * (Z * option error) :=
  match w with
  | ginWriter g => let '(g', r) := gin.WriteString s g in (ginWriter g', r)
  | responseInterceptor embedded body =>
      let '(embedded', r) := WriteString s embedded in
      (responseInterceptor embedded' body, r)
  end.

Fixpoint WriteHeader (code : Z) (w : ResponseWriter) : ResponseWriter :=
  match w with
  | ginWriter g => ginWriter (gin.WriteHeader code g)
  | responseInterceptor embedded body => responseInterceptor (WriteHeader code embedded) body
  end.

Fixpoint WriteHeaderNow (w : ResponseWriter) : ResponseWriter :=
  match w with
  | ginWriter g => ginWriter (gin.WriteHeaderNow g)
  | responseInterceptor embedded body => responseInterceptor (WriteHeaderNow embedded) body
  end.

Fixpoint Flush (w : ResponseWriter) : ResponseWriter :=
  match w with
  | ginWriter g => ginWriter (gin.Flush g)
  | responseInterceptor embedded body => responseInterceptor (Flush embedded) body
  end.

(** [w.Header()] returns the header map; [SetHeader f] is a mutation of that
    map ([Set], [Add], [Del] or an index assignment). *)
Fixpoint Header (w : ResponseWriter) : http.Header :=
  match w with
  | ginWriter g => gin.Header g
  | responseInterceptor embedded _ => Header embedded
  end.

Fixpoint SetHeader (f : http.Header -> http.Header) (w : ResponseWriter) : ResponseWriter :=
  match w with
  | ginWriter g => ginWriter (gin.SetHeader f g)
  | responseInterceptor embedded body => responseInterceptor (SetHeader f embedded) body
  end.

Fixpoint Status (w : ResponseWriter) : Z :=
  match w with
  | ginWriter g => gin.status g
  | responseInterceptor embedded _ => Status embedded
  end.

Fixpoint Size (w : ResponseWriter) : Z :=
  match w with
  | ginWriter g => gin.size g
  | responseInterceptor embedded _ => Size embedded
  end.

Fixpoint Written (w : ResponseWriter) : bool :=
  match w with
  | ginWriter g => gin.Written g
  | responseInterceptor embedded _ => Written embedded
  end.

(** gin's writer at the bottom of a stack of interceptors. *)
Fixpoint transport (w : ResponseWriter) : http.ResponseWriter :=
  match w with
  | ginWriter g => gin.ResponseWriter g
  | responseInterceptor embedded _ => transport embedded
  end.

(** ** Handlers

    A run of the handlers of the chain (or of an [ErrorHandler] callback) is
    observed through the calls it issues, in order, on the context it is
    given. *)
Inductive Call : Type :=
| CallWrite (b : bytes)                              (* c.Writer.Write(b) *)
| CallWriteString (s : string)                       (* c.Writer.WriteString(s) *)
| CallWriteHeader (code : Z)                         (* c.Writer.WriteHeader(code), c.Status(code) *)
| CallSetHeader (f : http.Header -> http.Header)     (* c.Writer.Header().Set(..), c.Header(..) *)
| CallWriteHeaderNow                                 (* c.Writer.WriteHeaderNow() *)
| CallFlush                                          (* c.Writer.Flush() *)
| CallAbort.                                         (* c.Abort() *)

(** render: [writeContentType] sets the header only when none is present. *)
Definition setContentType (value : list string) (h : http.Header) : http.Header :=
  match h !! "Content-Type" with
  | Some (_ :: _) => h
  | _ => <["Content-Type" := value]> h
  end.

(** [c.Data(code, contentType, data)] as the calls [c.Render] makes. *)
Definition Data (code : Z) (contentType : string) (data : bytes) : list Call :=
  if gin.bodyAllowedForStatus code then
    [CallWriteHeader code; CallSetHeader (setContentType [contentType]); CallWrite data]
  else
    [CallWriteHeader code; CallSetHeader (setContentType [contentType]); CallWriteHeaderNow].


(** ** The package *)
Section ginmiddleware.

(** Types the package only passes along: [*http.Request],
    [*routers.Route], [openapi3filter.Options],
    [openapi3filter.ContentParameterDecoder], the [interface{}] of
    [UserData], [*openapi3.Server] and the rest of an [openapi3.T]. *)
Context {http_Request routers_Route filter_Options ContentParameterDecoder any
         openapi3_Server Document : Type}.

(** [openapi3.T]; [Servers] is a slice, [None] when nil. *)
Record openapi3_T : Type := mkT {
  Servers : option (list openapi3_Server);
  document : Document
}.

(** [routers.Router] *)
Record Router : Type := mkRouter {
  FindRoute : http_Request -> (routers_Route * gmap string string) + error
}.

(** [ErrorHandler], [MultiErrorHandler] and [Options] of the package.  The
    field [filterOptions] is the one named [Options] in the source. *)
Definition ErrorHandler_t : Type := string -> Z -> list Call.
Definition MultiErrorHandler_t : Type := list error -> option error.

Record Options : Type := mkOptions {
  ErrorHandler : option ErrorHandler_t;
  filterOptions : filter_Options;
  ParamDecoder : option ContentParameterDecoder;
  UserData : any;
  MultiErrorHandler : option MultiErrorHandler_t;
  SilenceServersWarning : bool
}.

(** [context.Context] as the values it carries, innermost first. *)
Inductive ctxKey : Type :=
| GinContextKeyType (s : string)
| UserDataKeyType (s : string).

Definition GinContextKey : ctxKey := GinContextKeyType "oapi-codegen/gin-context".
Definition UserDataKey : ctxKey := UserDataKeyType "oapi-codegen/user-data".

Inductive ctxValue : Type :=
| ginContext                (* the [*gin.Context] of the request *)
| userData (u : any).

Definition context_Context : Type := list (ctxKey * ctxValue).
Definition context_Background : context_Context := [].
Definition context_WithValue (parent : context_Context) (key : ctxKey) (val : ctxValue)
  : context_Context := (key, val) :: parent.

(** [openapi3filter.RequestValidationInput] and
    [openapi3filter.ResponseValidationInput], the fields the package sets. *)
Record RequestValidationInput : Type := mkRequestValidationInput {
  rq_Request : http_Request;
  rq_PathParams : gmap string string;
  rq_Route : routers_Route;
  rq_Options : option filter_Options;
  rq_ParamDecoder : option ContentParameterDecoder
}.

Record ResponseValidationInput : Type := mkResponseValidationInput {
  rs_RequestValidationInput : RequestValidationInput;
  rs_Status : Z;
  rs_Header : http.Header;
  rs_Body : bytes;
  rs_Options : option filter_Options
}.

(** The collaborators: the validation engine, the router constructor, the
    document loader, the file system and the JSON encoder. *)
Variable openapi3filter_ValidateResponse :
  context_Context -> ResponseValidationInput -> option error.
Variable openapi3filter_ValidateRequest :
  context_Context -> RequestValidationInput -> option error.
Variable gorillamux_NewRouter : openapi3_T -> Router + error.
Variable os_ReadFile : string -> bytes + error.
Variable openapi3_LoadFromData : bytes -> openapi3_T + error.
Variable json_Marshal : gin.H -> bytes.

(** *** gin: context.go *)

(** [gin.Context]: the request, the writer, whether the chain is aborted,
    and the calls the handlers after the current one will make. *)
Record Context : Type := mkContext {
  Request : http_Request;
  Writer : ResponseWriter;
  aborted : bool;
  handlers : list Call
}.

Definition set_Writer (w : ResponseWriter) (c : Context) : Context :=
  mkContext (Request c) w (aborted c) (handlers c).

Definition Abort (c : Context) : Context :=
  mkContext (Request c) (Writer c) true (handlers c).

Definition IsAborted (c : Context) : bool := aborted c.

Definition do_call (k : Call) (c : Context) : Context :=
  match k with
  | CallWrite b => set_Writer (fst (Write b (Writer c))) c
  | CallWriteString s => set_Writer (fst (WriteString s (Writer c))) c
  | CallWriteHeader code => set_Writer (WriteHeader code (Writer c)) c
  | CallSetHeader f => set_Writer (SetHeader f (Writer c)) c
  | CallWriteHeaderNow => set_Writer (WriteHeaderNow (Writer c)) c
  | CallFlush => set_Writer (Flush (Writer c)) c
  | CallAbort => Abort c
  end.

Definition run (calls : list Call) (c : Context) : Context :=
  fold_left (fun c k => do_call k c) calls c.

(** [c.Next()]: runs the rest of the chain, unless the chain is aborted. *)
Definition Next (c : Context) : Context :=
  if aborted c then c
  else run (handlers c) (mkContext (Request c) (Writer c) (aborted c) []).

(** [c.AbortWithStatusJSON(code, obj)]: [c.Abort()] then [c.JSON(code, obj)],
    that is [c.Status(code)] and, when the status allows a body, the JSON
    content type (unless one is set) and the encoded object; a failed
    write aborts again. *)
Definition jsonContentType : list string := ["application/json; charset=utf-8"].

Definition JSON (code : Z) (obj : gin.H) (c : Context) : Context :=
  let c := set_Writer (WriteHeader code (Writer c)) c in
  let c := set_Writer (SetHeader (setContentType jsonContentType) (Writer c)) c in
  if gin.bodyAllowedForStatus code then
    let '(w, (_, err)) := Write (json_Marshal obj) (Writer c) in
    let c := set_Writer w c in
    match err with
    | Some _ => Abort c
    | None => c
    end
  else set_Writer (WriteHeaderNow (Writer c)) c.

Definition AbortWithStatusJSON (code : Z) (obj : gin.H) (c : Context) : Context :=
  JSON code obj (Abort c).

Definition HandlerFunc : Type := Context -> result Context.

(** *** utils.go *)

(** [defaultMultiErrorHandler]: [%s] of an error value is its [Error()]. *)
Definition defaultMultiErrorHandler (me : list error) : option error :=
  Some (errorString ("multiple errors encountered: " +:+ Error (MultiError me))).

Definition getMultiErrorHandlerFromOptions (options : option Options) : MultiErrorHandler_t :=
  match options with
  | None => defaultMultiErrorHandler
  | Some o =>
      match MultiErrorHandler o with
      | None => defaultMultiErrorHandler
      | Some h => h
      end
  end.

(** *** context.go *)

Definition getRequestContext (c : Context) (options : option Options) : context_Context :=
  let requestContext := context_WithValue context_Background GinContextKey ginContext in
  match options with
  | Some o => context_WithValue requestContext UserDataKey (userData (UserData o))
  | None => requestContext
  end.

(** *** oapi_validate_response.go *)

(** Lines 110-124 of [ValidateResponseFromContext]: the request validation
    input and the context handed to the engine. *)
Definition reqValidationInput_of (req : http_Request) (route : routers_Route)
    (pathParams : gmap string string) (options : option Options) : RequestValidationInput :=
  match options with
  | Some o =>
      mkRequestValidationInput req pathParams route (Some (filterOptions o)) (ParamDecoder o)
  | None => mkRequestValidationInput req pathParams route None None
  end.

Definition requestContext_of (options : option Options) : context_Context :=
  let requestContext := context_WithValue context_Background GinContextKey ginContext in
  match options with
  | Some o => context_WithValue requestContext UserDataKey (userData (UserData o))
  | None => requestContext
  end.

(** Lines 126-131: the writer is wrapped and the next handlers run. *)
Definition intercept (c : Context) : Context :=
  let bw := responseInterceptor (Writer c) (bytes_of_string "") in
  let c := set_Writer bw c in
  Next c.

(** Lines 133-146: the response validation input read back from [c]
    after the handlers ran ([bw] is [c.Writer]). *)
Definition rspValidationInput_of (c : Context) (reqValidationInput : RequestValidationInput)
    (options : option Options) : ResponseValidationInput :=
  let bw := Writer c in
  let status := Status (Writer c) in
  let body := bw_body bw in
  mkResponseValidationInput reqValidationInput status (Header (Writer c)) body
    (match options with Some o => Some (filterOptions o) | None => None end).

(** Lines 154-173: what is returned for an error [err] of the engine. *)
Definition responseError_of (options : option Options) (err : error) : result (option error) :=
  match errors_As_MultiError err with
  | Some me =>
      let errFunc := getMultiErrorHandlerFromOptions options in
      Ret (errFunc me)
  | None =>
      match err with
      | ResponseError _ _ =>
          let errorLines := strings_Split (Error err) LF in
          call line <- index errorLines 0 in
          Ret (Some (errorString ("error in openapi3filter.ResponseError: " +:+ line)))
      | SecurityRequirementsError _ _ =>
          Ret (Some (errorString
                 ("error in openapi3filter.SecurityRequirementsError: " +:+ Error err)))
      | _ =>
          Ret (Some (wrapError ("error validating response: " +:+ Error err) err))
      end
  end.

Definition ValidateResponseFromContext (c : Context) (router : Router)
    (options : option Options) : result (Context * option error) :=
  let req := Request c in
  match FindRoute router req with
  | inr err =>
      match err with
      | RouteError Reason => Ret (c, Some (errors_New Reason))
      | _ => Ret (c, Some (errorString ("error validating route: " +:+ Error err)))
      end
  | inl (route, pathParams) =>
      let reqValidationInput := reqValidationInput_of req route pathParams options in
      let requestContext := requestContext_of options in
      let c := intercept c in
      let bw := Writer c in
      let rspValidationInput := rspValidationInput_of c reqValidationInput options in
      match openapi3filter_ValidateResponse requestContext rspValidationInput with
      | Some err =>
          let c := set_Writer (bw_ResponseWriter bw) c in
          call e <- responseError_of options err in
          Ret (c, e)
      | None =>
          let '(w, (_, err)) := Write (bw_body bw) (bw_ResponseWriter bw) in
          let c := set_Writer (responseInterceptor w (bw_body bw)) c in
          match err with
          | Some err =>
              Ret (c, Some (wrapError ("error writing response body: " +:+ Error err) err))
          | None => Ret (c, None)
          end
      end
  end.

Definition responseServersWarning : string :=
  "WARN: OapiResponseValidatorWithOptions called with an OpenAPI spec that has `Servers` set. This may lead to an HTTP 400 with `no matching operation was found` when sending a valid request, as the validator performs `Host` header validation. If you're expecting `Host` header validation, you can silence this warning by setting `Options.SilenceServersWarning = true`. See https://github.com/deepmap/oapi-codegen/issues/882 for more information.".

(** Line 59: the condition of the warning. *)
Definition warns (swagger : openapi3_T) (options : option Options) : bool :=
  match Servers swagger with
  | None => false
  | Some _ =>
      match options with
      | None => true
      | Some o => negb (SilenceServersWarning o)
      end
  end.

(** Lines 67-78: the handler the constructor returns. *)
Definition responseValidator (router : Router) (options : option Options) : HandlerFunc :=
  fun c =>
    call (c, err) <- ValidateResponseFromContext c router options in
    match err with
    | Some err =>
        match match options with Some o => ErrorHandler o | None => None end with
        | Some handler =>
            let c := run (handler (Error err) http.StatusInternalServerError) c in
            Ret (Abort c)
        | None =>
            Ret (AbortWithStatusJSON http.StatusInternalServerError
                   [("error", Error err)] c)
        end
    | None => Ret c
    end.

(** A constructor returns the lines it printed with [log.Println] and
    either the handler or the panic of [gorillamux.NewRouter]. *)
Definition OapiResponseValidatorWithOptions (swagger : openapi3_T) (options : option Options)
  : list string * result HandlerFunc :=
  let log := if warns swagger options then [responseServersWarning] else [] in
  match gorillamux_NewRouter swagger with
  | inr err => (log, Panic (Error err))
  | inl router => (log, Ret (responseValidator router options))
  end.

Definition OapiResponseValidator (swagger : openapi3_T) : list string * result HandlerFunc :=
  OapiResponseValidatorWithOptions swagger None.

(** *** oapi_validate.go *)

(** Modelled from the spec: [getRequestValidationInput] is called by
    [ValidateRequestFromContext] and declared in a file that is not among
    the sources.  Section 4.3: resolve the contract operation, then build
    the validation input from the request, the path parameters and the
    configured decoding strategy; section 4.2 for a request no operation
    matches: the reason of a typed route error, else the raw error text. *)
Definition getRequestValidationInput (req : http_Request) (router : Router)
    (options : option Options) : RequestValidationInput + error :=
  match FindRoute router req with
  | inr err =>
      match err with
      | RouteError Reason => inr (errors_New Reason)
      | _ => inr (errors_New (Error err))
      end
  | inl (route, pathParams) => inl (reqValidationInput_of req route pathParams options)
  end.

(** Modelled from the spec: [handleValidationError] is called by the
    request middleware and declared in a file that is not among the
    sources.  Sections 4.2 and 4.3: a configured error-reporting callback
    is invoked with the message and the status code and processing is then
    marked terminated; otherwise a default body with the single field
    carrying the message is written at that status code. *)
Definition handleValidationError (c : Context) (err : error) (options : option Options)
    (statusCode : Z) : Context :=
  match match options with Some o => ErrorHandler o | None => None end with
  | Some handler => Abort (run (handler (Error err) statusCode) c)
  | None => AbortWithStatusJSON statusCode [("error", Error err)] c
  end.

(** Lines 86-106 of [ValidateRequestFromContext]. *)
Definition requestError_of (options : option Options) (err : error) : result (option error) :=
  match errors_As_MultiError err with
  | Some me =>
      let errFunc := getMultiErrorHandlerFromOptions options in
      Ret (errFunc me)
  | None =>
      match err with
      | RequestError _ _ =>
          let errorLines := strings_Split (Error err) LF in
          call line <- index errorLines 0 in
          Ret (Some (errorString ("error in openapi3filter.RequestError: " +:+ line)))
      | SecurityRequirementsError _ _ =>
          Ret (Some (errorString
                 ("error in openapi3filter.SecurityRequirementsError: " +:+ Error err)))
      | _ =>
          Ret (Some (wrapError ("error validating request: " +:+ Error err) err))
      end
  end.

Definition ValidateRequestFromContext (c : Context) (router : Router)
    (options : option Options) : result (option error) :=
  match getRequestValidationInput (Request c) router options with
  | inr err =>
      Ret (Some (wrapError
             ("error getting request validation input from route: " +:+ Error err) err))
  | inl validationInput =>
      let requestContext := getRequestContext c options in
      match openapi3filter_ValidateRequest requestContext validationInput with
      | Some err => requestError_of options err
      | None => Ret None
      end
  end.

Definition requestServersWarning : string :=
  "WARN: OapiRequestValidatorWithOptions called with an OpenAPI spec that has `Servers` set. This may lead to an HTTP 400 with `no matching operation was found` when sending a valid request, as the validator performs `Host` header validation. If you're expecting `Host` header validation, you can silence this warning by setting `Options.SilenceServersWarning = true`. See https://github.com/deepmap/oapi-codegen/issues/882 for more information.".

(** Lines 64-70: the handler the constructor returns. *)
Definition requestValidator (router : Router) (options : option Options) : HandlerFunc :=
  fun c =>
    call err <- ValidateRequestFromContext c router options in
    let c :=
      match err with
      | Some err => handleValidationError c err options http.StatusBadRequest
      | None => c
      end in
    Ret (Next c).

Definition OapiRequestValidatorWithOptions (swagger : openapi3_T) (options : option Options)
  : list string * result HandlerFunc :=
  let log := if warns swagger options then [requestServersWarning] else [] in
  match gorillamux_NewRouter swagger with
  | inr err => (log, Panic (Error err))
  | inl router => (log, Ret (requestValidator router options))
  end.

Definition OapiRequestValidator (swagger : openapi3_T) : list string * result HandlerFunc :=
  OapiRequestValidatorWithOptions swagger None.

(** The two constructors from a file: what was logged, and either a panic
    or the pair (handler, error) of the source as a sum. *)
Definition OapiValidatorFromYamlFile (path : string)
  : list string * result (HandlerFunc + error) :=
  match os_ReadFile path with
  | inr err => ([], Ret (inr (errorString ("error reading " +:+ path +:+ ": " +:+ Error err))))
  | inl data =>
      match openapi3_LoadFromData data with
      | inr err =>
          ([], Ret (inr (errorString
                 ("error parsing " +:+ path +:+ " as Swagger YAML: " +:+ Error err))))
      | inl swagger =>
          let '(log, h) := OapiRequestValidator swagger in
          (log, call h <- h in Ret (inl h))
      end
  end.

Definition OapiResponseValidatorFromYamlFile (path : string)
  : list string * result (HandlerFunc + error) :=
  match os_ReadFile path with
  | inr err => ([], Ret (inr (errorString ("error reading " +:+ path +:+ ": " +:+ Error err))))
  | inl data =>
      match openapi3_LoadFromData data with
      | inr err =>
          ([], Ret (inr (errorString
                 ("error parsing " +:+ path +:+ " as Swagger YAML: " +:+ Error err))))
      | inl swagger =>
          let '(log, h) := OapiRequestValidator swagger in
          (log, call h <- h in Ret (inl h))
      end
  end.

(** *** What a handler did, read off its calls *)

(** The bytes given to [Write], in order. *)
Definition written_by (calls : list Call) : bytes :=
  flat_map (fun k => match k with CallWrite b => b | _ => [] end) calls.

(** The calls other than [Write]. *)
Definition passed_through (calls : list Call) : list Call :=
  List.filter (fun k => match k with CallWrite _ => false | _ => true end) calls.


(** The status a handler leaves on a writer whose header is not yet sent:
    the last positive code given to [WriteHeader]. *)
Fixpoint status_of (calls : list Call) (status : Z) : Z :=
  match calls with
  | [] => status
  | CallWriteHeader code :: rest => status_of rest (if 0 <? code then code else status)
  | _ :: rest => status_of rest status
  end.

(** The header map after the handler's mutations. *)
Fixpoint header_of (calls : list Call) (h : http.Header) : http.Header :=
  match calls with
  | [] => h
  | CallSetHeader f :: rest => header_of rest (f h)
  | _ :: rest => header_of rest h
  end.

(** No call that sends the header or bytes past the buffer:
    [WriteString], [WriteHeaderNow], [Flush]. *)
Definition writes_only (calls : list Call) : bool :=
  forallb (fun k => match k with
                    | CallWriteString _ | CallWriteHeaderNow | CallFlush => false
                    | _ => true
                    end) calls.

Definition aborts (calls : list Call) : bool :=
  existsb (fun k => match k with CallAbort => true | _ => false end) calls.

(** The calls [c.Next()] will run. *)
Definition pending (c : Context) : list Call :=
  if aborted c then [] else handlers c.

(** A writer on which nothing was sent yet and whose connection works. *)
Definition fresh (g : gin.responseWriter) : Prop :=
  gin.size g = gin.noWritten /\
  http.wroteHeader (gin.ResponseWriter g) = None /\
  http.writes (gin.ResponseWriter g) = [] /\
  http.fault (gin.ResponseWriter g) = None.

(** The configured [ErrorHandler], if any
    ([options != nil && options.ErrorHandler != nil]). *)
Definition errorHandler_of (options : option Options) : option ErrorHandler_t :=
  match options with Some o => ErrorHandler o | None => None end.

(** The first line of a text: its bytes before the first line feed. *)
Fixpoint first_line (s : string) : string :=
  match s with
  | EmptyString => EmptyString
  | String ch rest => if Ascii.eqb ch LF then EmptyString else String ch (first_line rest)
  end.

(** The arm of the type switch an error falls in when it is not an
    aggregate. *)
Definition is_ResponseError (err : error) : bool :=
  match err with ResponseError _ _ => true | _ => false end.
Definition is_RequestError (err : error) : bool :=
  match err with RequestError _ _ => true | _ => false end.
Definition is_SecurityRequirementsError (err : error) : bool :=
  match err with SecurityRequirementsError _ _ => true | _ => false end.

(** The effect of one call, and of a sequence of calls, on the writer
    they are issued on. *)
Definition call_writer (k : Call) (w : ResponseWriter) : ResponseWriter :=
  match k with
  | CallWrite b => fst (Write b w)
  | CallWriteString s => fst (WriteString s w)
  | CallWriteHeader code => WriteHeader code w
  | CallSetHeader f => SetHeader f w
  | CallWriteHeaderNow => WriteHeaderNow w
  | CallFlush => Flush w
  | CallAbort => w
  end.

Definition serve (calls : list Call) (w : ResponseWriter) : ResponseWriter :=
  fold_left (fun w k => call_writer k w) calls w.

(** [options] with the field [SilenceServersWarning] set to [b]. *)
Definition with_SilenceServersWarning (b : bool) (o : Options) : Options :=
  mkOptions (ErrorHandler o) (filterOptions o) (ParamDecoder o) (UserData o)
    (MultiErrorHandler o) b.

(** Whether the warning is silenced: [options != nil] and the field set. *)
Definition silenced (options : option Options) : bool :=
  match options with Some o => SilenceServersWarning o | None => false end.

(** A constructed middleware applied to a request. *)
Definition handle (mw : result HandlerFunc) (c : Context) : result Context :=
  call h <- mw in h c.

(** What the engine answers on the response path for a routed request:
    the call of line 148 on the inputs built before it. *)
Definition responseVerdict (c : Context) (route : routers_Route)
    (pathParams : gmap string string) (options : option Options) : option error :=
  openapi3filter_ValidateResponse (requestContext_of options)
    (rspValidationInput_of (intercept c)
       (reqValidationInput_of (Request c) route pathParams options) options).

(** *** utils.go: reading the request context back *)





(** The payloads of the [WriteString] calls, in order. *)
Definition strings_written (calls : list Call) : list bytes :=
  flat_map (fun k => match k with
                     | CallWriteString s => [bytes_of_string s]
                     | _ => []
                     end) calls.

(** Only calls of [Write]. *)
Definition only_Write (calls : list Call) : bool :=
  forallb (fun k => match k with CallWrite _ => true | _ => false end) calls.

(** ** Properties *)

(** *** Lines of a text *)

Lemma strings_Split_first_line (s : string) :
  exists lines, strings_Split s LF = first_line s :: lines.
Proof.
  induction s as [|ch rest [lines IH]]; simpl.
  - exists []. reflexivity.
  - destruct (Ascii.eqb ch LF).
    + eexists. reflexivity.
    + rewrite IH. eexists. reflexivity.
Qed.

Lemma index_errorLines (s : string) :
  index (strings_Split s LF) 0 = Ret (first_line s).
Proof.
  destruct (strings_Split_first_line s) as [lines ->]. reflexivity.
Qed.

Lemma first_line_single (s : string) :
  contains_byte LF (first_line s) = false.
Proof.
  induction s as [|ch rest IH]; simpl; [reflexivity|].
  destruct (Ascii.eqb ch LF) eqn:E; simpl; [reflexivity|].
  rewrite E. exact IH.
Qed.

Lemma first_line_prefix (s : string) :
  exists rest, s = first_line s +:+ rest /\ (rest = "" \/ exists r, rest = String LF r).
Proof.
  induction s as [|ch tail [rest [IH Hrest]]]; simpl.
  - exists "". split; [reflexivity | left; reflexivity].
  - destruct (Ascii.eqb ch LF) eqn:E.
    + apply Ascii.eqb_eq in E. subst ch.
      exists (String LF tail). split; [reflexivity | right; eexists; reflexivity].
    + exists rest. split; [|exact Hrest].
      change (String ch tail = String ch (first_line tail +:+ rest)).
      f_equal. exact IH.
Qed.

(** *** The two validators on a rejected input *)

Lemma ValidateResponseFromContext_rejected c router options route pathParams err :
  FindRoute router (Request c) = inl (route, pathParams) ->
  responseVerdict c route pathParams options = Some err ->
  ValidateResponseFromContext c router options =
    (call e <- responseError_of options err in
     Ret (set_Writer (bw_ResponseWriter (Writer (intercept c))) (intercept c), e)).
Proof.
  intros Hroute Hverdict. unfold ValidateResponseFromContext.
  rewrite Hroute. unfold responseVerdict in Hverdict. rewrite Hverdict. reflexivity.
Qed.

Lemma ValidateRequestFromContext_rejected c router options validationInput err :
  getRequestValidationInput (Request c) router options = inl validationInput ->
  openapi3filter_ValidateRequest (getRequestContext c options) validationInput = Some err ->
  ValidateRequestFromContext c router options = requestError_of options err.
Proof.
  intros Hinput Hverdict. unfold ValidateRequestFromContext.
  rewrite Hinput, Hverdict. reflexivity.
Qed.

Lemma responseError_of_aggregate options err me :
  errors_As_MultiError err = Some me ->
  responseError_of options err = Ret (getMultiErrorHandlerFromOptions options me).
Proof. intros H. unfold responseError_of. rewrite H. reflexivity. Qed.

Lemma requestError_of_aggregate options err me :
  errors_As_MultiError err = Some me ->
  requestError_of options err = Ret (getMultiErrorHandlerFromOptions options me).
Proof. intros H. unfold requestError_of. rewrite H. reflexivity. Qed.

(** Neither classification panics, and only a configured aggregate handler
    can turn an engine error into no error. *)
Lemma responseError_of_returns options err :
  exists e, responseError_of options err = Ret e /\
    (e = None -> exists me o h, errors_As_MultiError err = Some me /\
                   options = Some o /\ MultiErrorHandler o = Some h /\ h me = None).
Proof.
  unfold responseError_of.
  destruct (errors_As_MultiError err) as [me|] eqn:Has.
  - eexists. split; [reflexivity|]. intros Hnone.
    unfold getMultiErrorHandlerFromOptions in Hnone.
    destruct options as [o|]; [|discriminate].
    destruct (MultiErrorHandler o) as [h|] eqn:Hh; [|discriminate].
    exists me, o, h. auto.
  - destruct err; try (eexists; split; [reflexivity | discriminate]).
    rewrite index_errorLines. eexists; split; [reflexivity | discriminate].
Qed.


(** C7: a [*openapi3filter.ResponseError] (response path) or
    [*openapi3filter.RequestError] (request path) that [errors.As] does not
    match with [openapi3.MultiError] is returned as the fixed prefix
    followed by the first line of its text only: the part of the text
    before its first line feed, which holds no line feed. *)
Theorem structured_error_keeps_first_line :
  forall (options : option Options) (err : error),
    errors_As_MultiError err = None ->
    (is_ResponseError err = true ->
       forall c router route pathParams,
         FindRoute router (Request c) = inl (route, pathParams) ->
         responseVerdict c route pathParams options = Some err ->
         exists c',
           ValidateResponseFromContext c router options =
             Ret (c', Some (errorString ("error in openapi3filter.ResponseError: "
                                          +:+ first_line (Error err)))))
    /\ (is_RequestError err = true ->
       forall c router validationInput,
         getRequestValidationInput (Request c) router options = inl validationInput ->
         openapi3filter_ValidateRequest (getRequestContext c options) validationInput
           = Some err ->
         ValidateRequestFromContext c router options =
           Ret (Some (errorString ("error in openapi3filter.RequestError: "
                                    +:+ first_line (Error err)))))
    /\ contains_byte LF (first_line (Error err)) = false
    /\ (exists rest, Error err = first_line (Error err) +:+ rest /\
                     (rest = "" \/ exists r, rest = String LF r)).
Proof.
  intros options err Has. repeat split.
  - intros Hty c router route pathParams Hroute Hverdict.
    rewrite (ValidateResponseFromContext_rejected _ _ _ _ _ _ Hroute Hverdict).
    unfold responseError_of. rewrite Has.
    destruct err; try discriminate Hty.
    rewrite index_errorLines. simpl. eexists. reflexivity.
  - intros Hty c router validationInput Hinput Hverdict.
    rewrite (ValidateRequestFromContext_rejected _ _ _ _ _ Hinput Hverdict).
    unfold requestError_of. rewrite Has.
    destruct err; try discriminate Hty.
    rewrite index_errorLines. reflexivity.
  - apply first_line_single.
  - apply first_line_prefix.
Qed.

(** C8: whenever [errors.As] matches the engine's error with
    [openapi3.MultiError], whatever the dynamic type of the error, both
    validators return what the handler chosen by
    [getMultiErrorHandlerFromOptions] returns on the matched value; without
    options or without a configured handler that is the default one, whose
    message joins the texts of all the wrapped errors. *)
Theorem aggregate_check_comes_first :
  forall (options : option Options) (err : error) (me : list error),
    errors_As_MultiError err = Some me ->
    (forall c router route pathParams,
        FindRoute router (Request c) = inl (route, pathParams) ->
        responseVerdict c route pathParams options = Some err ->
        exists c',
          ValidateResponseFromContext c router options =
            Ret (c', getMultiErrorHandlerFromOptions options me))
    /\ (forall c router validationInput,
        getRequestValidationInput (Request c) router options = inl validationInput ->
        openapi3filter_ValidateRequest (getRequestContext c options) validationInput
          = Some err ->
        ValidateRequestFromContext c router options =
          Ret (getMultiErrorHandlerFromOptions options me))
    /\ (forall o h, options = Some o -> MultiErrorHandler o = Some h ->
          getMultiErrorHandlerFromOptions options me = h me)
    /\ ((options = None \/ exists o, options = Some o /\ MultiErrorHandler o = None) ->
          getMultiErrorHandlerFromOptions options me =
            Some (errorString ("multiple errors encountered: "
                                +:+ spliceErr " | " (map Error me)))).
Proof.
  intros options err me Has. repeat split.
  - intros c router route pathParams Hroute Hverdict.
    rewrite (ValidateResponseFromContext_rejected _ _ _ _ _ _ Hroute Hverdict).
    rewrite (responseError_of_aggregate _ _ _ Has). simpl. eexists. reflexivity.
  - intros c router validationInput Hinput Hverdict.
    rewrite (ValidateRequestFromContext_rejected _ _ _ _ _ Hinput Hverdict).
    apply requestError_of_aggregate. exact Has.
  - intros o h -> Hh. unfold getMultiErrorHandlerFromOptions. rewrite Hh. reflexivity.
  - intros [-> | [o [-> Hh]]]; unfold getMultiErrorHandlerFromOptions.
    + reflexivity.
    + rewrite Hh. reflexivity.
Qed.


(** *** Handlers behind the interceptor *)

Lemma run_eq (calls : list Call) :
  forall c, run calls c =
    mkContext (Request c) (serve calls (Writer c)) (aborted c || aborts calls) (handlers c).
Proof.
  induction calls as [|k calls IH]; intros c.
  - destruct c as [req w ab hs]. simpl. rewrite orb_false_r. reflexivity.
  - change (run (k :: calls) c) with (run calls (do_call k c)).
    rewrite IH. destruct c as [req w ab hs].
    destruct k; simpl; try reflexivity.
    rewrite orb_true_r. reflexivity.
Qed.

Lemma serve_intercepted (calls : list Call) :
  forall embedded body,
    serve calls (responseInterceptor embedded body) =
      responseInterceptor (serve (passed_through calls) embedded) (body ++ written_by calls).
Proof.
  induction calls as [|k calls IH]; intros embedded body.
  - simpl. rewrite app_nil_r. reflexivity.
  - change (serve (k :: calls) (responseInterceptor embedded body))
      with (serve calls (call_writer k (responseInterceptor embedded body))).
    destruct k; simpl call_writer.
    + rewrite IH. simpl. rewrite <- app_assoc. reflexivity.
    + destruct (WriteString s embedded) as [embedded' r] eqn:E.
      simpl. rewrite IH. simpl. rewrite E. reflexivity.
    + rewrite IH. reflexivity.
    + rewrite IH. reflexivity.
    + rewrite IH. reflexivity.
    + rewrite IH. reflexivity.
    + rewrite IH. reflexivity.
Qed.

Lemma intercept_eq (c : Context) :
  intercept c =
    mkContext (Request c)
      (responseInterceptor (serve (passed_through (pending c)) (Writer c))
         (written_by (pending c)))
      (aborted c || aborts (pending c))
      (if aborted c then handlers c else []).
Proof.
  unfold intercept, Next, pending. destruct c as [req w ab hs]. simpl.
  destruct ab; simpl.
  - reflexivity.
  - rewrite run_eq. simpl. rewrite serve_intercepted. reflexivity.
Qed.

(** C6: on an interceptor every method but [Write] is the method of the
    wrapped writer, acting on the wrapped writer and leaving the buffer
    alone; [Write] appends to the buffer, leaves the wrapped writer alone
    and reports all bytes accepted.  So a handler run behind the
    interceptor leaves the wrapped writer as its calls other than [Write]
    leave it, the buffer holding the bytes of its [Write] calls; and the
    status and header the validator reads back after the handler are those
    of the wrapped writer. *)
Theorem interceptor_diverts_only_Write :
  forall (embedded : ResponseWriter) (body : bytes),
    let bw := responseInterceptor embedded body in
    (forall b, Write b bw =
                 (responseInterceptor embedded (body ++ b), (Z.of_nat (length b), None)))
    /\ (forall code, WriteHeader code bw = responseInterceptor (WriteHeader code embedded) body)
    /\ (forall f, SetHeader f bw = responseInterceptor (SetHeader f embedded) body)
    /\ WriteHeaderNow bw = responseInterceptor (WriteHeaderNow embedded) body
    /\ Flush bw = responseInterceptor (Flush embedded) body
    /\ (forall s, WriteString s bw =
                   (responseInterceptor (fst (WriteString s embedded)) body,
                    snd (WriteString s embedded)))
    /\ Status bw = Status embedded
    /\ Header bw = Header embedded
    /\ Size bw = Size embedded
    /\ Written bw = Written embedded
    /\ (forall calls,
          serve calls bw =
            responseInterceptor (serve (passed_through calls) embedded)
              (body ++ written_by calls))
    /\ (forall (c : Context) reqValidationInput options,
          let handled := serve (passed_through (pending c)) (Writer c) in
          let input := rspValidationInput_of (intercept c) reqValidationInput options in
          Writer (intercept c) = responseInterceptor handled (written_by (pending c))
          /\ rs_Status input = Status handled
          /\ rs_Header input = Header handled
          /\ rs_Body input = written_by (pending c)).
Proof.
  intros embedded body bw. subst bw.
  repeat match goal with |- _ /\ _ => split end; try reflexivity.
  - intros s. simpl. destruct (WriteString s embedded) as [e r]. reflexivity.
  - intros calls. apply serve_intercepted.
  - intros c reqValidationInput options handled input. subst handled input.
    unfold rspValidationInput_of. rewrite intercept_eq. repeat split.
Qed.

(** *** gin's writer on a working connection *)

Lemma gin_Write_healthy (data : bytes) (g : gin.responseWriter) :
  http.fault (gin.ResponseWriter g) = None ->
  snd (gin.Write data g) = (Z.of_nat (length data), None) /\
  http.writes (gin.ResponseWriter (fst (gin.Write data g))) =
    http.writes (gin.ResponseWriter g) ++ [data] /\
  http.fault (gin.ResponseWriter (fst (gin.Write data g))) = None.
Proof.
  destruct g as [[h wh ws f] sz st]. simpl. intros ->.
  unfold gin.Write, gin.WriteHeaderNow, gin.Written. simpl.
  destruct (sz =? gin.noWritten); simpl;
    unfold http.Write, http.WriteHeader; simpl; destruct wh; simpl; auto.
Qed.

Lemma gin_WriteHeader_unsent (h : http.Header) (ws : list bytes) (f : option error)
    (st code : Z) :
  gin.WriteHeader code
    (gin.mkResponseWriter (http.mkResponseWriter h None ws f) gin.noWritten st) =
  gin.mkResponseWriter (http.mkResponseWriter h None ws f) gin.noWritten
    (if 0 <? code then code else st).
Proof.
  unfold gin.WriteHeader, gin.Written. simpl.
  destruct (0 <? code); simpl; [|reflexivity].
  destruct (st =? code) eqn:E; simpl; [|reflexivity].
  apply Z.eqb_eq in E. subst. reflexivity.
Qed.

(** A handler that only sets the status, mutates the header and calls
    [Write] leaves an unsent writer unsent. *)
Lemma serve_writes_only (calls : list Call) :
  forall h ws f st,
    writes_only calls = true ->
    serve (passed_through calls)
      (ginWriter (gin.mkResponseWriter (http.mkResponseWriter h None ws f) gin.noWritten st)) =
    ginWriter (gin.mkResponseWriter
                 (http.mkResponseWriter (header_of calls h) None ws f)
                 gin.noWritten (status_of calls st)).
Proof.
  induction calls as [|k calls IH]; intros h ws f st Hw.
  - reflexivity.
  - simpl in Hw. apply andb_true_iff in Hw. destruct Hw as [Hk Hw].
    destruct k; try discriminate Hk; simpl passed_through.
    + apply IH. exact Hw.
    + change (serve (CallWriteHeader code :: passed_through calls) ?w)
        with (serve (passed_through calls) (call_writer (CallWriteHeader code) w)).
      simpl call_writer. rewrite gin_WriteHeader_unsent. apply IH. exact Hw.
    + change (serve (CallSetHeader f0 :: passed_through calls) ?w)
        with (serve (passed_through calls) (call_writer (CallSetHeader f0) w)).
      simpl call_writer. apply IH. exact Hw.
    + change (serve (CallAbort :: passed_through calls) ?w)
        with (serve (passed_through calls) (call_writer CallAbort w)).
      simpl call_writer. apply IH. exact Hw.
Qed.


(** *** gin's context *)

Lemma JSON_keeps_abort code obj c :
  aborted c = true -> aborted (JSON code obj c) = true.
Proof.
  intros Hab. unfold JSON. destruct (gin.bodyAllowedForStatus code); simpl; [|exact Hab].
  destruct (Write _ _) as [w [n [err|]]]; simpl; auto.
Qed.

Lemma JSON_keeps_handlers code obj c :
  handlers (JSON code obj c) = handlers c.
Proof.
  unfold JSON. destruct (gin.bodyAllowedForStatus code); simpl; [|reflexivity].
  destruct (Write _ _) as [w [n [err|]]]; reflexivity.
Qed.

Lemma AbortWithStatusJSON_aborts code obj c :
  IsAborted (AbortWithStatusJSON code obj c) = true.
Proof. apply JSON_keeps_abort. reflexivity. Qed.

(** The default error response on a writer whose header is not yet sent
    and whose connection works. *)
Lemma AbortWithStatusJSON_unsent code obj (c : Context) h ws st :
  Writer c = ginWriter (gin.mkResponseWriter (http.mkResponseWriter h None ws None)
                          gin.noWritten st) ->
  (0 <? code) = true ->
  gin.bodyAllowedForStatus code = true ->
  let w := Writer (AbortWithStatusJSON code obj c) in
  Status w = code /\
  http.wroteHeader (transport w) = Some (code, setContentType jsonContentType h) /\
  http.writes (transport w) = ws ++ [json_Marshal obj].
Proof.
  intros Hw Hcode Hbody. unfold AbortWithStatusJSON, JSON. rewrite Hbody.
  destruct c as [req w0 ab hs]. simpl in Hw. subst w0. simpl.
  rewrite gin_WriteHeader_unsent. rewrite Hcode. simpl. repeat split.
Qed.

(** *** What the middleware does with the outcome of the validator *)

Lemma responseValidator_failed c router options c' err :
  ValidateResponseFromContext c router options = Ret (c', Some err) ->
  responseValidator router options c =
    match errorHandler_of options with
    | Some handler =>
        Ret (Abort (run (handler (Error err) http.StatusInternalServerError) c'))
    | None =>
        Ret (AbortWithStatusJSON http.StatusInternalServerError [("error", Error err)] c')
    end.
Proof.
  intros H. unfold responseValidator. rewrite H. simpl. unfold errorHandler_of.
  destruct options as [o|]; [destruct (ErrorHandler o)|]; reflexivity.
Qed.

Lemma responseValidator_passed c router options c' :
  ValidateResponseFromContext c router options = Ret (c', None) ->
  responseValidator router options c = Ret c'.
Proof. intros H. unfold responseValidator. rewrite H. reflexivity. Qed.


Lemma ValidateResponseFromContext_unrouted c router options err :
  FindRoute router (Request c) = inr err ->
  ValidateResponseFromContext c router options =
    Ret (c, Some (errorString
                    match err with
                    | RouteError Reason => Reason
                    | _ => "error validating route: " +:+ Error err
                    end)).
Proof.
  intros Hroute. unfold ValidateResponseFromContext. rewrite Hroute.
  destruct err; reflexivity.
Qed.

(** C5 (as the code has it): when the router returns an error, the
    validator returns at once, the context untouched (no handler ran and
    the writer is the one it was given), with the [Reason] of a
    [*routers.RouteError] as the message, and for any other error its
    text behind the prefix "error validating route: ".  The middleware
    then aborts the chain, the handlers still not run. *)
Theorem unrouted_request_short_circuits :
  forall c router options err,
    FindRoute router (Request c) = inr err ->
    ValidateResponseFromContext c router options =
      Ret (c, Some (errorString
                      match err with
                      | RouteError Reason => Reason
                      | _ => "error validating route: " +:+ Error err
                      end))
    /\ exists c'',
         responseValidator router options c = Ret c'' /\
         IsAborted c'' = true /\
         handlers c'' = handlers c.
Proof.
  intros c router options err Hroute.
  pose proof (ValidateResponseFromContext_unrouted c router options err Hroute) as H.
  split; [exact H|].
  rewrite (responseValidator_failed _ _ _ _ _ H).
  destruct (errorHandler_of options) as [handler|]; eexists; split; try reflexivity.
  - split; [reflexivity|]. simpl. rewrite run_eq. reflexivity.
  - split; [apply AbortWithStatusJSON_aborts|].
    unfold AbortWithStatusJSON. rewrite JSON_keeps_handlers. reflexivity.
Qed.

(** *** The validator on an accepted response *)

Lemma ValidateResponseFromContext_accepted c router options route pathParams :
  FindRoute router (Request c) = inl (route, pathParams) ->
  responseVerdict c route pathParams options = None ->
  let underlying := serve (passed_through (pending c)) (Writer c) in
  let buffered := written_by (pending c) in
  ValidateResponseFromContext c router options =
    Ret (set_Writer (responseInterceptor (fst (Write buffered underlying)) buffered)
           (intercept c),
         match snd (snd (Write buffered underlying)) with
         | Some err => Some (wrapError ("error writing response body: " +:+ Error err) err)
         | None => None
         end).
Proof.
  intros Hroute Hverdict underlying buffered. subst underlying buffered.
  unfold ValidateResponseFromContext. rewrite Hroute.
  unfold responseVerdict in Hverdict. rewrite Hverdict.
  rewrite intercept_eq. simpl.
  destruct (Write _ _) as [w [n [err|]]]; reflexivity.
Qed.

(** C1 (as the code has it): for a routed request, with [underlying] the
    wrapped writer as the handlers left it and [buffered] the bytes of
    their [Write] calls: if the engine accepts, the validator's only action
    on [underlying] is one [Write] of all of [buffered] (on gin's writer
    with a working connection: one more payload on the wire, equal to
    [buffered], and no error); if the engine rejects, the validator leaves
    [underlying] as it is and puts it back in the context, and the
    middleware hands the classified error, when it is not nil, to the
    configured [ErrorHandler], or without one writes the JSON error body
    to [underlying]. *)
Theorem captured_body_all_or_nothing :
  forall c router options route pathParams,
    FindRoute router (Request c) = inl (route, pathParams) ->
    let underlying := serve (passed_through (pending c)) (Writer c) in
    let buffered := written_by (pending c) in
    let c1 := intercept c in
    Writer c1 = responseInterceptor underlying buffered
    /\ (responseVerdict c route pathParams options = None ->
        exists e,
          ValidateResponseFromContext c router options =
            Ret (set_Writer
                   (responseInterceptor (fst (Write buffered underlying)) buffered) c1, e)
          /\ forall g,
               underlying = ginWriter g ->
               http.fault (gin.ResponseWriter g) = None ->
               e = None /\
               http.writes (transport (fst (Write buffered underlying))) =
                 http.writes (gin.ResponseWriter g) ++ [buffered])
    /\ (forall err,
        responseVerdict c route pathParams options = Some err ->
        exists e,
          responseError_of options err = Ret e /\
          ValidateResponseFromContext c router options = Ret (set_Writer underlying c1, e) /\
          match e, errorHandler_of options with
          | None, _ =>
              responseValidator router options c = Ret (set_Writer underlying c1)
          | Some e', Some handler =>
              responseValidator router options c =
                Ret (Abort (run (handler (Error e') 500) (set_Writer underlying c1)))
          | Some e', None =>
              responseValidator router options c =
                Ret (AbortWithStatusJSON 500 [("error", Error e')]
                       (set_Writer underlying c1))
              /\ forall h ws st,
                   underlying = ginWriter (gin.mkResponseWriter
                                             (http.mkResponseWriter h None ws None)
                                             gin.noWritten st) ->
                   http.writes
                     (transport (Writer (AbortWithStatusJSON 500 [("error", Error e')]
                                           (set_Writer underlying c1)))) =
                     ws ++ [json_Marshal [("error", Error e')]]
          end).
Proof.
  intros c router options route pathParams Hroute underlying buffered c1.
  assert (Hw : Writer c1 = responseInterceptor underlying buffered).
  { subst c1. rewrite intercept_eq. reflexivity. }
  split; [exact Hw|]. split.
  - intros Hverdict. eexists. split.
    + apply (ValidateResponseFromContext_accepted _ _ _ _ _ Hroute Hverdict).
    + intros g Hg Hfault. fold underlying buffered. rewrite Hg. simpl.
      destruct (gin_Write_healthy buffered g Hfault) as [Hret [Hwrites _]].
      destruct (gin.Write buffered g) as [g' [n err]]. simpl in *.
      inversion Hret; subst. split; [reflexivity | exact Hwrites].
  - intros err Hverdict.
    destruct (responseError_of_returns options err) as [e [He _]].
    exists e. split; [exact He|].
    assert (Hv : ValidateResponseFromContext c router options =
                   Ret (set_Writer underlying c1, e)).
    { rewrite (ValidateResponseFromContext_rejected _ _ _ _ _ _ Hroute Hverdict).
      rewrite He. simpl. fold c1. rewrite Hw. reflexivity. }
    split; [exact Hv|].
    destruct e as [e'|].
    + rewrite (responseValidator_failed _ _ _ _ _ Hv).
      destruct (errorHandler_of options) as [handler|]; [reflexivity|].
      split; [reflexivity|].
      intros h ws st Hu.
      apply (AbortWithStatusJSON_unsent 500 _ (set_Writer underlying c1) h ws st);
        [simpl; exact Hu | reflexivity | reflexivity].
    + apply responseValidator_passed. exact Hv.
Qed.


(** *** The constructors *)

Lemma Next_aborted (c : Context) : aborted c = true -> Next c = c.
Proof. intros H. unfold Next. rewrite H. reflexivity. Qed.

Lemma requestValidator_unrouted router (c : Context) err :
  FindRoute router (Request c) = inr err ->
  exists e,
    requestValidator router None c =
      Ret (AbortWithStatusJSON http.StatusBadRequest [("error", Error e)] c).
Proof.
  intros Hroute. unfold requestValidator, ValidateRequestFromContext,
    getRequestValidationInput. rewrite Hroute.
  destruct err; simpl; eexists;
    (rewrite Next_aborted; [reflexivity | apply AbortWithStatusJSON_aborts]).
Qed.

(** C3: when the file is read and parsed, [OapiResponseValidatorFromYamlFile]
    returns what [OapiRequestValidator] builds from the document (its log
    lines, its panic, its handler), which is also what
    [OapiValidatorFromYamlFile] returns; when the router can be built that
    handler is the request validator without options, not the response
    validator [OapiResponseValidator] builds: with [Servers] set the two
    constructors print different warnings, and on a request the router
    does not match and an unsent writer the returned handler answers 400
    where the response validator answers 500. *)
Theorem response_validator_from_file_validates_requests :
  forall path data swagger,
    os_ReadFile path = inl data ->
    openapi3_LoadFromData data = inl swagger ->
    OapiResponseValidatorFromYamlFile path =
      (fst (OapiRequestValidator swagger),
       call h <- snd (OapiRequestValidator swagger) in Ret (inl h))
    /\ OapiResponseValidatorFromYamlFile path = OapiValidatorFromYamlFile path
    /\ (Servers swagger <> None ->
          fst (OapiResponseValidatorFromYamlFile path) = [requestServersWarning] /\
          fst (OapiResponseValidator swagger) = [responseServersWarning] /\
          requestServersWarning <> responseServersWarning)
    /\ forall router,
         gorillamux_NewRouter swagger = inl router ->
         snd (OapiResponseValidatorFromYamlFile path) =
           Ret (inl (requestValidator router None))
         /\ snd (OapiResponseValidator swagger) = Ret (responseValidator router None)
         /\ forall c err h ws st,
              FindRoute router (Request c) = inr err ->
              Writer c = ginWriter (gin.mkResponseWriter
                                      (http.mkResponseWriter h None ws None)
                                      gin.noWritten st) ->
              exists c1 c2,
                requestValidator router None c = Ret c1 /\
                responseValidator router None c = Ret c2 /\
                Status (Writer c1) = http.StatusBadRequest /\
                Status (Writer c2) = http.StatusInternalServerError.
Proof.
  intros path data swagger Hread Hload.
  assert (Heq : OapiResponseValidatorFromYamlFile path =
            (fst (OapiRequestValidator swagger),
             call h <- snd (OapiRequestValidator swagger) in Ret (inl h))).
  { unfold OapiResponseValidatorFromYamlFile. rewrite Hread, Hload.
    destruct (OapiRequestValidator swagger) as [log h]. reflexivity. }
  split; [exact Heq|]. split; [reflexivity|]. split.
  - intros Hservers. rewrite Heq.
    unfold OapiRequestValidator, OapiResponseValidator,
      OapiRequestValidatorWithOptions, OapiResponseValidatorWithOptions, warns.
    destruct (Servers swagger); [|contradiction].
    destruct (gorillamux_NewRouter swagger); simpl; repeat split; discriminate.
  - intros router Hrouter. rewrite Heq.
    unfold OapiRequestValidator, OapiResponseValidator,
      OapiRequestValidatorWithOptions, OapiResponseValidatorWithOptions.
    rewrite Hrouter. simpl. repeat split.
    intros c err h ws st Hroute Hw.
    destruct (requestValidator_unrouted router c err Hroute) as [e He].
    pose proof (ValidateResponseFromContext_unrouted c router None err Hroute) as Hv.
    pose proof (responseValidator_failed _ _ _ _ _ Hv) as Hr. simpl in Hr.
    eexists _, _. split; [exact He|]. split; [exact Hr|]. split.
    + apply (AbortWithStatusJSON_unsent http.StatusBadRequest _ c h ws st Hw);
        reflexivity.
    + apply (AbortWithStatusJSON_unsent http.StatusInternalServerError _ c h ws st Hw);
        reflexivity.
Qed.

(** C10 (as the code has it): each constructor prints its warning once,
    while it builds the middleware, exactly when [swagger.Servers] is not
    nil (an empty list included) and [SilenceServersWarning] is not set,
    and prints nothing otherwise; the handler it returns prints nothing
    (a handler only transforms the context) and behaves the same whatever
    the value of [SilenceServersWarning]. *)
Theorem servers_warning_at_construction :
  forall swagger options,
    (fst (OapiResponseValidatorWithOptions swagger options) =
       (if warns swagger options then [responseServersWarning] else []))
    /\ (fst (OapiRequestValidatorWithOptions swagger options) =
       (if warns swagger options then [requestServersWarning] else []))
    /\ (warns swagger options = true <->
          Servers swagger <> None /\ silenced options = false)
    /\ (forall o b c,
          handle (snd (OapiResponseValidatorWithOptions swagger
                         (Some (with_SilenceServersWarning b o)))) c =
          handle (snd (OapiResponseValidatorWithOptions swagger (Some o))) c)
    /\ (forall o b c,
          handle (snd (OapiRequestValidatorWithOptions swagger
                         (Some (with_SilenceServersWarning b o)))) c =
          handle (snd (OapiRequestValidatorWithOptions swagger (Some o))) c).
Proof.
  intros swagger options. repeat split.
  - unfold OapiResponseValidatorWithOptions.
    destruct (gorillamux_NewRouter swagger); reflexivity.
  - unfold OapiRequestValidatorWithOptions.
    destruct (gorillamux_NewRouter swagger); reflexivity.
  - unfold warns in H. destruct (Servers swagger); [discriminate | discriminate H].
  - unfold warns, silenced in *. destruct (Servers swagger); [|discriminate H].
    destruct options as [o|]; [|reflexivity].
    destruct (SilenceServersWarning o); [discriminate H | reflexivity].
  - intros [Hservers Hsilenced]. unfold warns, silenced in *.
    destruct (Servers swagger); [|contradiction].
    destruct options as [o|]; [|reflexivity]. rewrite Hsilenced. reflexivity.
  - intros o b c. unfold OapiResponseValidatorWithOptions.
    destruct (gorillamux_NewRouter swagger) as [router|err]; [|reflexivity].
    destruct o. reflexivity.
  - intros o b c. unfold OapiRequestValidatorWithOptions.
    destruct (gorillamux_NewRouter swagger) as [router|err]; [|reflexivity].
    destruct o. reflexivity.
Qed.

(** *** Further properties of the package *)


(** X4: a [*openapi3filter.SecurityRequirementsError] that [errors.As]
    does not match with [openapi3.MultiError] is returned, on both paths, as
    the fixed prefix followed by its whole text, line feeds included. *)
Theorem security_error_keeps_full_text :
  forall (options : option Options) (err : error),
    errors_As_MultiError err = None ->
    is_SecurityRequirementsError err = true ->
    (forall c router route pathParams,
        FindRoute router (Request c) = inl (route, pathParams) ->
        responseVerdict c route pathParams options = Some err ->
        exists c',
          ValidateResponseFromContext c router options =
            Ret (c', Some (errorString
                             ("error in openapi3filter.SecurityRequirementsError: "
                                +:+ Error err))))
    /\ (forall c router validationInput,
        getRequestValidationInput (Request c) router options = inl validationInput ->
        openapi3filter_ValidateRequest (getRequestContext c options) validationInput
          = Some err ->
        ValidateRequestFromContext c router options =
          Ret (Some (errorString
                       ("error in openapi3filter.SecurityRequirementsError: "
                          +:+ Error err)))).
Proof.
  intros options err Has Hty. split.
  - intros c router route pathParams Hroute Hverdict.
    rewrite (ValidateResponseFromContext_rejected _ _ _ _ _ _ Hroute Hverdict).
    unfold responseError_of. rewrite Has.
    destruct err; try discriminate Hty. simpl. eexists. reflexivity.
  - intros c router validationInput Hinput Hverdict.
    rewrite (ValidateRequestFromContext_rejected _ _ _ _ _ Hinput Hverdict).
    unfold requestError_of. rewrite Has.
    destruct err; try discriminate Hty. reflexivity.
Qed.



(** X9: when the engine rejects a response with an error [errors.As]
    matches with [openapi3.MultiError] and the configured
    [MultiErrorHandler] returns nil for it, the validator returns nil: the
    middleware writes neither the buffered body nor an error body to the
    writer the handlers left, which it puts back in the context, and it does
    not abort the chain. *)
Theorem nil_from_MultiErrorHandler_drops_response :
  forall c router o handler route pathParams err me,
    MultiErrorHandler o = Some handler ->
    FindRoute router (Request c) = inl (route, pathParams) ->
    responseVerdict c route pathParams (Some o) = Some err ->
    errors_As_MultiError err = Some me ->
    handler me = None ->
    let underlying := serve (passed_through (pending c)) (Writer c) in
    ValidateResponseFromContext c router (Some o) =
      Ret (set_Writer underlying (intercept c), None)
    /\ responseValidator router (Some o) c = Ret (set_Writer underlying (intercept c))
    /\ Writer (set_Writer underlying (intercept c)) = underlying
    /\ IsAborted (set_Writer underlying (intercept c)) = (aborted c || aborts (pending c))%bool.
Proof.
  intros c router o handler route pathParams err me Hh Hroute Hverdict Has Hnil underlying.
  assert (Hv : ValidateResponseFromContext c router (Some o) =
                 Ret (set_Writer underlying (intercept c), None)).
  { rewrite (ValidateResponseFromContext_rejected _ _ _ _ _ _ Hroute Hverdict).
    rewrite (responseError_of_aggregate _ _ _ Has).
    unfold getMultiErrorHandlerFromOptions. rewrite Hh, Hnil. simpl.
    rewrite intercept_eq. reflexivity. }
  split; [exact Hv|]. split; [exact (responseValidator_passed _ _ _ _ Hv)|].
  split; [reflexivity|]. rewrite intercept_eq. reflexivity.
Qed.

(** X10: without a configured [MultiErrorHandler] (no options, or the field
    nil) every response the engine rejects makes the validator return an
    error and the middleware abort the chain. *)
Theorem rejection_aborts_without_custom_aggregate_handler :
  forall c router options route pathParams err,
    match options with Some o => MultiErrorHandler o | None => None end = None ->
    FindRoute router (Request c) = inl (route, pathParams) ->
    responseVerdict c route pathParams options = Some err ->
    exists c' e c'',
      ValidateResponseFromContext c router options = Ret (c', Some e) /\
      responseValidator router options c = Ret c'' /\
      IsAborted c'' = true.
Proof.
  intros c router options route pathParams err Hdefault Hroute Hverdict.
  pose proof (ValidateResponseFromContext_rejected _ _ _ _ _ _ Hroute Hverdict) as Hv.
  destruct (responseError_of_returns options err) as [e [He Hnone]].
  rewrite He in Hv. simpl in Hv.
  destruct e as [e|].
  - eexists _, e. 
    destruct (errorHandler_of options) as [handler|] eqn:Hh.
    + eexists. split; [exact Hv|].
      rewrite (responseValidator_failed _ _ _ _ _ Hv), Hh.
      split; reflexivity.
    + eexists. split; [exact Hv|].
      rewrite (responseValidator_failed _ _ _ _ _ Hv), Hh.
      split; [reflexivity | apply AbortWithStatusJSON_aborts].
  - destruct (Hnone eq_refl) as [me [o [h [_ [-> [Hh _]]]]]].
    rewrite Hh in Hdefault. discriminate Hdefault.
Qed.

(** *** The writer after the handlers, on the wire *)

Lemma gin_Write_faulty (data : bytes) (g : gin.responseWriter) (err : error) :
  http.fault (gin.ResponseWriter g) = Some err ->
  snd (gin.Write data g) = (0, Some err) /\
  http.writes (gin.ResponseWriter (fst (gin.Write data g))) =
    http.writes (gin.ResponseWriter g).
Proof.
  destruct g as [[h wh ws f] sz st]. simpl. intros ->.
  unfold gin.Write, gin.WriteHeaderNow, gin.Written. simpl.
  destruct (sz =? gin.noWritten); simpl;
    unfold http.Write, http.WriteHeader; simpl; destruct wh; simpl; auto.
Qed.

Lemma gin_WriteHeader_transport (code : Z) (g : gin.responseWriter) :
  gin.ResponseWriter (gin.WriteHeader code g) = gin.ResponseWriter g.
Proof.
  unfold gin.WriteHeader.
  destruct ((0 <? code) && negb (gin.status g =? code)); [|reflexivity].
  destruct (gin.Written g); reflexivity.
Qed.

(** One call other than [Write] on gin's writer with a working connection:
    only [WriteString] puts a payload on the wire. *)
Lemma call_writer_sent (k : Call) (g : gin.responseWriter) :
  http.fault (gin.ResponseWriter g) = None ->
  match k with CallWrite _ => false | _ => true end = true ->
  exists g',
    call_writer k (ginWriter g) = ginWriter g' /\
    http.fault (gin.ResponseWriter g') = None /\
    http.writes (gin.ResponseWriter g') =
      http.writes (gin.ResponseWriter g) ++ strings_written [k].
Proof.
  intros Hf Hk. destruct g as [[h wh ws f] sz st]. simpl in Hf. subst f.
  destruct k; try discriminate Hk; simpl.
  - unfold gin.WriteString, gin.WriteHeaderNow, gin.Written. simpl.
    destruct (sz =? gin.noWritten); simpl;
      unfold http.Write, http.WriteHeader; simpl; destruct wh; simpl;
      eexists; repeat split.
  - eexists. split; [reflexivity|].
    rewrite gin_WriteHeader_transport, app_nil_r. auto.
  - eexists. split; [reflexivity|]. simpl. rewrite app_nil_r. auto.
  - unfold gin.WriteHeaderNow, gin.Written. simpl.
    destruct (sz =? gin.noWritten); simpl; rewrite app_nil_r;
      unfold http.WriteHeader; simpl; try destruct wh; simpl;
      eexists; repeat split.
  - unfold gin.Flush, gin.WriteHeaderNow, gin.Written. simpl.
    destruct (sz =? gin.noWritten); simpl; rewrite app_nil_r;
      unfold http.Flush, http.WriteHeader; simpl; destruct wh; simpl;
      eexists; repeat split.
  - eexists. split; [reflexivity|]. rewrite app_nil_r. auto.
Qed.

Lemma serve_passed_sent (calls : list Call) :
  forall g,
    http.fault (gin.ResponseWriter g) = None ->
    exists g',
      serve (passed_through calls) (ginWriter g) = ginWriter g' /\
      http.fault (gin.ResponseWriter g') = None /\
      http.writes (gin.ResponseWriter g') =
        http.writes (gin.ResponseWriter g) ++ strings_written calls.
Proof.
  induction calls as [|k calls IH]; intros g Hf.
  - exists g. simpl. rewrite app_nil_r. auto.
  - destruct (match k with CallWrite _ => false | _ => true end) eqn:Hk.
    + destruct (call_writer_sent k g Hf Hk) as [g1 [H1 [Hf1 Hw1]]].
      destruct (IH g1 Hf1) as [g' [H' [Hf' Hw']]].
      exists g'. split; [|split; [exact Hf'|]].
      * change (passed_through (k :: calls))
          with (if match k with CallWrite _ => false | _ => true end
                then k :: passed_through calls else passed_through calls).
        rewrite Hk.
        change (serve (k :: passed_through calls) (ginWriter g))
          with (serve (passed_through calls) (call_writer k (ginWriter g))).
        rewrite H1. exact H'.
      * rewrite Hw', Hw1, <- List.app_assoc. f_equal.
        unfold strings_written. simpl. rewrite List.app_nil_r. reflexivity.
    + destruct k; try discriminate Hk. apply IH. exact Hf.
Qed.

Lemma only_Write_passed_through (calls : list Call) :
  only_Write calls = true -> passed_through calls = [].
Proof.
  induction calls as [|k calls IH]; intros H; [reflexivity|].
  simpl in H. apply andb_true_iff in H. destruct H as [Hk H].
  destruct k; try discriminate Hk. simpl. apply IH. exact H.
Qed.

Lemma passed_through_idempotent (calls : list Call) :
  passed_through (passed_through calls) = passed_through calls.
Proof.
  induction calls as [|k calls IH]; [reflexivity|].
  destruct k; simpl; rewrite ?IH; reflexivity.
Qed.

Lemma written_by_passed_through (calls : list Call) :
  written_by (passed_through calls) = [].
Proof.
  induction calls as [|k calls IH]; [reflexivity|].
  destruct k; simpl; exact IH.
Qed.

(** X2: when the engine accepts the response but the one [Write] of the
    buffer to gin's writer fails, the validator returns that error wrapped
    behind "error writing response body: " and leaves the interceptor in
    the context; the default error response of the middleware is therefore
    written into the buffer and nothing more reaches the connection. *)
Theorem write_failure_is_reported_into_buffer :
  forall c router options route pathParams g err,
    FindRoute router (Request c) = inl (route, pathParams) ->
    responseVerdict c route pathParams options = None ->
    serve (passed_through (pending c)) (Writer c) = ginWriter g ->
    http.fault (gin.ResponseWriter g) = Some err ->
    let buffered := written_by (pending c) in
    let e := wrapError ("error writing response body: " +:+ Error err) err in
    exists c',
      ValidateResponseFromContext c router options = Ret (c', Some e)
      /\ Unwrap e = Some err
      /\ bw_body (Writer c') = buffered
      /\ http.writes (transport (Writer c')) = http.writes (gin.ResponseWriter g)
      /\ (errorHandler_of options = None ->
          exists c'',
            responseValidator router options c = Ret c'' /\
            IsAborted c'' = true /\
            bw_body (Writer c'') = buffered ++ json_Marshal [("error", Error e)] /\
            http.writes (transport (Writer c'')) = http.writes (gin.ResponseWriter g)).
Proof.
  intros c router options route pathParams g err Hroute Hverdict Hg Hfault buffered e.
  pose proof (ValidateResponseFromContext_accepted _ _ _ _ _ Hroute Hverdict) as Hv.
  cbv zeta in Hv. fold buffered in Hv. rewrite Hg in Hv.
  destruct (gin_Write_faulty buffered g err Hfault) as [Hret Hwrites].
  simpl Write in Hv.
  destruct (gin.Write buffered g) as [g' [n werr]] eqn:HW. simpl in Hret, Hwrites, Hv.
  inversion Hret; subst n werr.
  eexists. split; [exact Hv|]. split; [reflexivity|]. split; [reflexivity|].
  split; [exact Hwrites|].
  intros Hdefault.
  rewrite (responseValidator_failed _ _ _ _ _ Hv), Hdefault.
  eexists. split; [reflexivity|]. split; [apply AbortWithStatusJSON_aborts|].
  unfold AbortWithStatusJSON, JSON. simpl.
  rewrite gin_WriteHeader_transport. split; [reflexivity | exact Hwrites].
Qed.

(** X3: after an accepted response the interceptor stays in the context:
    whatever is given to [Write] on the context afterwards is appended to
    the buffer, which is not written out again, and never reaches the
    wrapped writer. *)
Theorem later_writes_stay_in_buffer :
  forall c router options route pathParams c' e later,
    FindRoute router (Request c) = inl (route, pathParams) ->
    responseVerdict c route pathParams options = None ->
    ValidateResponseFromContext c router options = Ret (c', e) ->
    only_Write later = true ->
    bw_ResponseWriter (Writer (run later c')) = bw_ResponseWriter (Writer c')
    /\ bw_body (Writer (run later c')) = bw_body (Writer c') ++ written_by later
    /\ transport (Writer (run later c')) = transport (Writer c').
Proof.
  intros c router options route pathParams c' e later Hroute Hverdict Hv Hlater.
  rewrite (ValidateResponseFromContext_accepted _ _ _ _ _ Hroute Hverdict) in Hv.
  cbv zeta in Hv. inversion Hv; subst c'. clear Hv.
  rewrite run_eq. simpl Writer. rewrite serve_intercepted.
  rewrite (only_Write_passed_through _ Hlater). repeat split.
Qed.

(** X11: when the writer given to the validator is itself an interceptor
    (the middleware installed twice), an accepted response is appended to
    the outer buffer by a [Write] that cannot fail; the calls other than
    [Write] went through both interceptors to the outer wrapped writer. *)
Theorem nested_interceptors_compose :
  forall c router options route pathParams outer outerBody,
    Writer c = responseInterceptor outer outerBody ->
    FindRoute router (Request c) = inl (route, pathParams) ->
    responseVerdict c route pathParams options = None ->
    let buffered := written_by (pending c) in
    ValidateResponseFromContext c router options =
      Ret (set_Writer
             (responseInterceptor
                (responseInterceptor (serve (passed_through (pending c)) outer)
                   (outerBody ++ buffered))
                buffered)
             (intercept c), None).
Proof.
  intros c router options route pathParams outer outerBody Hw Hroute Hverdict buffered.
  rewrite (ValidateResponseFromContext_accepted _ _ _ _ _ Hroute Hverdict).
  cbv zeta. fold buffered. rewrite Hw, serve_intercepted.
  rewrite passed_through_idempotent, written_by_passed_through, app_nil_r.
  reflexivity.
Qed.

(** X12: on gin's writer with a working connection, the payloads of the
    handlers' [WriteString] calls are on the wire when the handlers return,
    before the engine is asked: they are delivered when the response is
    rejected, and they precede the buffered body when it is accepted. *)
Theorem WriteString_bypasses_validation :
  forall c router options route pathParams g,
    Writer c = ginWriter g ->
    http.fault (gin.ResponseWriter g) = None ->
    FindRoute router (Request c) = inl (route, pathParams) ->
    exists c' e,
      ValidateResponseFromContext c router options = Ret (c', e) /\
      (forall err,
          responseVerdict c route pathParams options = Some err ->
          http.writes (transport (Writer c')) =
            http.writes (gin.ResponseWriter g) ++ strings_written (pending c)) /\
      (responseVerdict c route pathParams options = None ->
          http.writes (transport (Writer c')) =
            http.writes (gin.ResponseWriter g) ++ strings_written (pending c)
              ++ [written_by (pending c)]).
Proof.
  intros c router options route pathParams g Hw Hfault Hroute.
  destruct (serve_passed_sent (pending c) g Hfault) as [g' [Hserve [Hf' Hsent]]].
  rewrite <- Hw in Hserve.
  destruct (responseVerdict c route pathParams options) as [err|] eqn:Hverdict.
  - pose proof (ValidateResponseFromContext_rejected _ _ _ _ _ _ Hroute Hverdict) as Hv.
    destruct (responseError_of_returns options err) as [e [He _]].
    rewrite He in Hv. simpl in Hv. rewrite intercept_eq in Hv. simpl in Hv.
    rewrite Hserve in Hv.
    eexists _, _. split; [exact Hv|]. split; [|discriminate].
    intros _ _. exact Hsent.
  - pose proof (ValidateResponseFromContext_accepted _ _ _ _ _ Hroute Hverdict) as Hv.
    cbv zeta in Hv. rewrite Hserve in Hv.
    eexists _, _. split; [exact Hv|]. split; [discriminate|].
    intros _. simpl.
    destruct (gin_Write_healthy (written_by (pending c)) g' Hf') as [_ [Hwrites _]].
    destruct (gin.Write (written_by (pending c)) g') as [g'' r]. simpl in *.
    rewrite Hwrites, Hsent, <- app_assoc. reflexivity.
Qed.

(** Once gin's writer has sent its header, neither [WriteHeader] nor a
    [Write] changes its status or the status line on the wire. *)
Lemma gin_WriteHeader_sent (code : Z) (g : gin.responseWriter) :
  gin.Written g = true -> gin.WriteHeader code g = g.
Proof.
  intros Hwritten. unfold gin.WriteHeader. rewrite Hwritten.
  destruct ((0 <? code) && negb (gin.status g =? code)); reflexivity.
Qed.

Lemma gin_Write_sent (data : bytes) (g : gin.responseWriter) sent :
  gin.Written g = true ->
  http.wroteHeader (gin.ResponseWriter g) = Some sent ->
  gin.status (fst (gin.Write data g)) = gin.status g /\
  http.wroteHeader (gin.ResponseWriter (fst (gin.Write data g))) = Some sent.
Proof.
  intros Hwritten Hsent. unfold gin.Write, gin.WriteHeaderNow. rewrite Hwritten. simpl.
  unfold http.Write, http.WriteHeader. rewrite Hsent.
  destruct (http.fault (gin.ResponseWriter g)); simpl; auto.
Qed.

(** X13: when the validator returns an error, no [ErrorHandler] is
    configured and the header of gin's writer was already sent (by a
    [WriteString], [WriteHeaderNow] or [Flush] of the handlers), the default
    error response cannot change the status: the writer keeps its status
    and the status line on the wire stays the one that was sent. *)
Theorem sent_header_cannot_become_500 :
  forall c router options c' err g sent,
    ValidateResponseFromContext c router options = Ret (c', Some err) ->
    errorHandler_of options = None ->
    Writer c' = ginWriter g ->
    gin.Written g = true ->
    http.wroteHeader (gin.ResponseWriter g) = Some sent ->
    exists c'',
      responseValidator router options c = Ret c'' /\
      IsAborted c'' = true /\
      Status (Writer c'') = gin.status g /\
      http.wroteHeader (transport (Writer c'')) = Some sent.
Proof.
  intros c router options c' err g sent Hv Hdefault Hw Hwritten Hsent.
  rewrite (responseValidator_failed _ _ _ _ _ Hv), Hdefault.
  eexists. split; [reflexivity|]. split; [apply AbortWithStatusJSON_aborts|].
  destruct c' as [req w ab hs]. simpl in Hw. subst w.
  unfold AbortWithStatusJSON, JSON, Abort. simpl.
  rewrite (gin_WriteHeader_sent _ _ Hwritten).
  set (g2 := gin.SetHeader (setContentType jsonContentType) g).
  assert (Hwritten2 : gin.Written g2 = true) by exact Hwritten.
  assert (Hsent2 : http.wroteHeader (gin.ResponseWriter g2) = Some sent) by exact Hsent.
  destruct (gin_Write_sent (json_Marshal [("error", Error err)]) g2 sent Hwritten2 Hsent2)
    as [Hstatus Hline].
  destruct (gin.Write (json_Marshal [("error", Error err)]) g2) as [g3 [n [werr|]]];
    simpl in *; auto.
Qed.

(** X15: on gin's writer with nothing sent and a working connection, and
    handlers that only set the status, mutate the header and call [Write]:
    when the engine rejects the response and no [ErrorHandler] is
    configured, the default error response goes out with status 500 but
    with the header map as the handlers left it (the JSON content type is
    set only if they set none), and its body is the encoded error alone. *)
Theorem error_response_keeps_handler_headers :
  forall c router options route pathParams g err e,
    Writer c = ginWriter g ->
    fresh g ->
    aborted c = false ->
    writes_only (handlers c) = true ->
    FindRoute router (Request c) = inl (route, pathParams) ->
    responseVerdict c route pathParams options = Some err ->
    responseError_of options err = Ret (Some e) ->
    errorHandler_of options = None ->
    exists c'',
      responseValidator router options c = Ret c'' /\
      http.wroteHeader (transport (Writer c'')) =
        Some (http.StatusInternalServerError,
              setContentType jsonContentType (header_of (handlers c) (gin.Header g))) /\
      http.writes (transport (Writer c'')) = [json_Marshal [("error", Error e)]].
Proof.
  intros c router options route pathParams g err e Hw Hfresh Hab Hwo Hroute Hverdict
    He Hdefault.
  destruct c as [req w ab hs]. simpl in Hw, Hab, Hwo, Hroute. subst w ab.
  destruct g as [[h wh ws f] sz st].
  destruct Hfresh as [Hsz [Hwh [Hws Hf]]]. simpl in Hsz, Hwh, Hws, Hf. subst sz wh ws f.
  set (c := mkContext req _ false hs) in *.
  pose proof (ValidateResponseFromContext_rejected c router options route pathParams err
                Hroute Hverdict) as Hv.
  rewrite He in Hv. simpl in Hv.
  rewrite (responseValidator_failed _ _ _ _ _ Hv), Hdefault.
  eexists. split; [reflexivity|].
  assert (Hserve : Writer (set_Writer (bw_ResponseWriter (Writer (intercept c))) (intercept c))
            = ginWriter (gin.mkResponseWriter
                           (http.mkResponseWriter (header_of hs h) None [] None)
                           gin.noWritten (status_of hs st))).
  { rewrite intercept_eq. simpl. apply serve_writes_only. exact Hwo. }
  destruct (AbortWithStatusJSON_unsent http.StatusInternalServerError
              [("error", Error e)] _ _ _ _ Hserve eq_refl eq_refl) as [_ [Hline Hwrites]].
  split; [exact Hline | exact Hwrites].
Qed.

(** *** The constructors on their failure paths *)

(** X6: when the file cannot be read, or its content cannot be parsed, both
    constructors from a file return an error naming the path and the cause,
    print nothing, and do not build a router (so they cannot panic). *)
Theorem file_constructors_return_errors :
  forall path,
    (forall err,
        os_ReadFile path = inr err ->
        let e := errorString ("error reading " +:+ path +:+ ": " +:+ Error err) in
        OapiResponseValidatorFromYamlFile path = ([], Ret (inr e)) /\
        OapiValidatorFromYamlFile path = ([], Ret (inr e)))
    /\ (forall data err,
        os_ReadFile path = inl data ->
        openapi3_LoadFromData data = inr err ->
        let e := errorString
                   ("error parsing " +:+ path +:+ " as Swagger YAML: " +:+ Error err) in
        OapiResponseValidatorFromYamlFile path = ([], Ret (inr e)) /\
        OapiValidatorFromYamlFile path = ([], Ret (inr e))).
Proof.
  intros path. split.
  - intros err Hread e.
    unfold OapiResponseValidatorFromYamlFile, OapiValidatorFromYamlFile.
    rewrite Hread. split; reflexivity.
  - intros data err Hread Hload e.
    unfold OapiResponseValidatorFromYamlFile, OapiValidatorFromYamlFile.
    rewrite Hread, Hload. split; reflexivity.
Qed.

(** X7: when [gorillamux.NewRouter] fails, each constructor panics with
    that error, after it has printed its warning if the warning is due; and
    a constructor from a file whose document was read and parsed panics
    too, instead of returning an error. *)
Theorem router_failure_panics_after_warning :
  forall swagger options err,
    gorillamux_NewRouter swagger = inr err ->
    OapiResponseValidatorWithOptions swagger options =
      ((if warns swagger options then [responseServersWarning] else []), Panic (Error err))
    /\ OapiRequestValidatorWithOptions swagger options =
      ((if warns swagger options then [requestServersWarning] else []), Panic (Error err))
    /\ forall path data,
         os_ReadFile path = inl data ->
         openapi3_LoadFromData data = inl swagger ->
         snd (OapiResponseValidatorFromYamlFile path) = Panic (Error err) /\
         snd (OapiValidatorFromYamlFile path) = Panic (Error err).
Proof.
  intros swagger options err Hrouter. split; [|split].
  - unfold OapiResponseValidatorWithOptions. rewrite Hrouter. reflexivity.
  - unfold OapiRequestValidatorWithOptions. rewrite Hrouter. reflexivity.
  - intros path data Hread Hload.
    unfold OapiResponseValidatorFromYamlFile, OapiValidatorFromYamlFile,
      OapiRequestValidator, OapiRequestValidatorWithOptions.
    rewrite Hread, Hload, Hrouter. split; reflexivity.
Qed.

(** X14: when the request is routed and the engine accepts it, the
    request validator returns nil and its middleware runs the next handlers
    itself, on the writer it was given: every call, [Write] included,
    acts on that writer, in the order the handlers made them. *)
Theorem accepted_request_runs_handlers_unwrapped :
  forall c router options validationInput,
    getRequestValidationInput (Request c) router options = inl validationInput ->
    openapi3filter_ValidateRequest (getRequestContext c options) validationInput = None ->
    ValidateRequestFromContext c router options = Ret None
    /\ exists c',
         requestValidator router options c = Ret c' /\
         Writer c' = serve (pending c) (Writer c) /\
         IsAborted c' = (aborted c || aborts (pending c))%bool.
Proof.
  intros c router options validationInput Hinput Haccept.
  assert (Hv : ValidateRequestFromContext c router options = Ret None).
  { unfold ValidateRequestFromContext. rewrite Hinput, Haccept. reflexivity. }
  split; [exact Hv|].
  unfold requestValidator. rewrite Hv. simpl. eexists. split; [reflexivity|].
  unfold Next, pending. destruct c as [req w ab hs]. simpl.
  destruct ab; simpl; [split; reflexivity|].
  rewrite run_eq. split; reflexivity.
Qed.

End ginmiddleware.

(** ** The engine and requests the router does not match *)

(** X5: for a request the router returns an error for, the answer of the
    response validator is the same whatever the engine: the engine is not
    consulted.  The same holds on the request path when no validation input
    could be built, and the error is then the cause wrapped behind "error
    getting request validation input from route: ". *)
Theorem unrouted_request_never_reaches_engine :
  forall {http_Request routers_Route filter_Options ContentParameterDecoder any : Type}
         (engine1 engine2 :
            @context_Context any ->
            @ResponseValidationInput http_Request routers_Route filter_Options
              ContentParameterDecoder -> option error)
         (engine3 engine4 :
            @context_Context any ->
            @RequestValidationInput http_Request routers_Route filter_Options
              ContentParameterDecoder -> option error)
         (c : Context) (router : Router) (options : option Options),
    (forall err,
        FindRoute router (Request c) = inr err ->
        ValidateResponseFromContext engine1 c router options =
          ValidateResponseFromContext engine2 c router options)
    /\ (forall err,
        getRequestValidationInput (Request c) router options = inr err ->
        ValidateRequestFromContext engine3 c router options =
          ValidateRequestFromContext engine4 c router options
        /\ exists e,
             ValidateRequestFromContext engine3 c router options = Ret (Some e) /\
             Error e = "error getting request validation input from route: " +:+ Error err /\
             Unwrap e = Some err).
Proof.
  intros. split.
  - intros err Hroute.
    rewrite !(ValidateResponseFromContext_unrouted _ _ _ _ _ Hroute). reflexivity.
  - intros err Hinput. unfold ValidateRequestFromContext. rewrite Hinput.
    split; [reflexivity|]. eexists. repeat split.
Qed.

(** ** A service with one operation

    A router that knows [GET /resource], an engine that checks the status,
    the content type and the body of its responses, and requests against
    them.  Requests are named by their method and path, routes by their
    operation. *)

Definition quoted (s : string) : string := String "034" (s +:+ String "034" "").

(** The body of the valid response, with its quotes. *)
Definition goodBody : string :=
  "{" +:+ quoted "name" +:+ ":" +:+ quoted "Wilhelm Scream" +:+ "," +:+ quoted "id" +:+ ":7}".

Definition badBody : string :=
  "{" +:+ quoted "name" +:+ ":" +:+ quoted "Wilhelm Scream" +:+ "," +:+ quoted "id" +:+ ":"
      +:+ quoted "not a number" +:+ "}".

Definition demoRouter : @Router string string :=
  mkRouter (fun req =>
    if String.eqb req "GET /resource" then inl ("getResource", ∅)
    else inr (RouteError "no matching operation was found")).

(** A router that fails with an error of its own. *)
Definition brokenRouter : @Router string string :=
  mkRouter (fun _ => inr (foreignError "router unavailable" [])).

Definition bodyError : error :=
  ResponseError
    ("response body doesn't match schema: value must be an integer"
       +:+ String LF "Schema: integer" +:+ String LF "Value: not a number") [].

Definition isJSON (h : http.Header) : bool :=
  match h !! "Content-Type" with
  | Some [v] => String.eqb v "application/json"
  | _ => false
  end.

(** Status 200 with a JSON body equal to [goodBody], or 504 with any body. *)
Definition demoValidateResponse (_ : @context_Context string)
    (input : @ResponseValidationInput string string unit unit) : option error :=
  if rs_Status input =? 200 then
    if isJSON (rs_Header input) then
      if String.eqb (string_of_list_byte (rs_Body input)) goodBody then None
      else Some bodyError
    else Some (ResponseError "response header Content-Type has unexpected value" [])
  else if rs_Status input =? 504 then None
  else Some (ResponseError "status is not supported" []).

(** Engines with a fixed answer. *)
Definition answerResponse (verdict : option error) (_ : @context_Context string)
    (_ : @ResponseValidationInput string string unit unit) : option error := verdict.

Definition answerRequest (verdict : option error) (_ : @context_Context string)
    (_ : @RequestValidationInput string string unit unit) : option error := verdict.

(** An encoder for objects whose texts need no escaping. *)
Definition marshal (obj : gin.H) : bytes :=
  bytes_of_string
    ("{" +:+ spliceErr "," (map (fun '(k, v) => quoted k +:+ ":" +:+ quoted v) obj) +:+ "}").

Definition demoSwagger : @openapi3_T string unit := mkT None tt.

(** A document whose [servers] is an empty list. *)
Definition emptyServersSwagger : @openapi3_T string unit := mkT (Some []) tt.

Definition demoNewRouter (_ : @openapi3_T string unit) : @Router string string + error :=
  inl demoRouter.

Definition demoReadFile (path : string) : bytes + error :=
  if String.eqb path "api.yaml" then inl (bytes_of_string "openapi: 3.0.0")
  else inr (errorString "no such file or directory").

Definition demoLoadFromData (_ : bytes) : @openapi3_T string unit + error := inl demoSwagger.

(** A request on a writer on which nothing was sent, before the handlers
    that will issue [calls]. *)
Definition unsent : gin.responseWriter :=
  gin.reset (http.mkResponseWriter ∅ None [] None).

Definition request (req : string) (calls : list Call) : @Context string :=
  mkContext req (ginWriter unsent) false calls.

(** An [ErrorHandler] that writes nothing, and the one of the tests. *)
Definition silentOptions : @Options unit unit string :=
  mkOptions (Some (fun _ _ => [])) tt None "hi!" None false.

Definition noOptions : option (@Options unit unit string) := None.


(** An aggregate inside a response error, and an error of an unknown type. *)
Definition aggregateError : error :=
  ResponseError "response body doesn't match schema"
    [MultiError [errorString "value must be an integer"; errorString "property is missing"]].


(** ** The properties on the service *)

(** The two-line text of [bodyError] is cut after its first line. *)
Lemma structured_error_keeps_first_line_witness :
  errors_As_MultiError bodyError = None /\
  exists c',
    ValidateResponseFromContext (answerResponse (Some bodyError))
      (request "GET /resource" (Data 200 "application/json" (bytes_of_string badBody)))
      demoRouter None =
    Ret (c', Some (errorString
                     "error in openapi3filter.ResponseError: response body doesn't match schema: value must be an integer")).
Proof.
  split; [reflexivity|].
  destruct (structured_error_keeps_first_line
              (answerResponse (Some bodyError)) (answerRequest None)
              None bodyError eq_refl) as [Hrsp _].
  exact (Hrsp eq_refl
           (request "GET /resource" (Data 200 "application/json" (bytes_of_string badBody)))
           demoRouter "getResource" ∅ eq_refl eq_refl).
Defined.

(** The aggregate wrapped in a response error goes to the default handler. *)
Lemma aggregate_check_comes_first_witness :
  errors_As_MultiError aggregateError =
    Some [errorString "value must be an integer"; errorString "property is missing"] /\
  exists c',
    ValidateResponseFromContext (answerResponse (Some aggregateError))
      (request "GET /resource" (Data 200 "application/json" (bytes_of_string badBody)))
      demoRouter None =
    Ret (c', Some (errorString
                     "multiple errors encountered: value must be an integer | property is missing")).
Proof.
  split; [reflexivity|].
  destruct (aggregate_check_comes_first
              (answerResponse (Some aggregateError)) (answerRequest None)
              None aggregateError _ eq_refl) as [Hrsp _].
  exact (Hrsp
           (request "GET /resource" (Data 200 "application/json" (bytes_of_string badBody)))
           demoRouter "getResource" ∅ eq_refl eq_refl).
Defined.



(** A request the router does not know. *)
Lemma unrouted_request_short_circuits_witness :
  let c := request "GET /nothing" (Data 200 "application/json" (bytes_of_string goodBody)) in
  FindRoute demoRouter (Request c) = inr (RouteError "no matching operation was found") /\
  ValidateResponseFromContext demoValidateResponse c demoRouter None =
    Ret (c, Some (errorString "no matching operation was found")).
Proof.
  intros c. split; [reflexivity|].
  exact (proj1 (unrouted_request_short_circuits demoValidateResponse marshal
                  c demoRouter None _ eq_refl)).
Defined.

(** The valid response of the service, and an invalid one. *)
Lemma captured_body_all_or_nothing_witness :
  let good := request "GET /resource" (Data 200 "application/json" (bytes_of_string goodBody)) in
  let bad := request "GET /resource" (Data 200 "application/json" (bytes_of_string badBody)) in
  FindRoute demoRouter (Request good) = inl ("getResource", ∅) /\
  FindRoute demoRouter (Request bad) = inl ("getResource", ∅) /\
  (exists c' e,
     ValidateResponseFromContext demoValidateResponse good demoRouter None = Ret (c', e) /\
     http.writes (transport (Writer c')) = [bytes_of_string goodBody]) /\
  (exists c' e,
     ValidateResponseFromContext demoValidateResponse bad demoRouter None = Ret (c', e) /\
     http.writes (transport (Writer c')) = []).
Proof.
  intros good bad. split; [reflexivity|]. split; [reflexivity|]. split.
  - destruct (captured_body_all_or_nothing demoValidateResponse marshal
                good demoRouter None "getResource" ∅ eq_refl) as [_ [Hok _]].
    destruct (Hok eq_refl) as [e [Hv _]].
    eexists _, e. split; [exact Hv | reflexivity].
  - destruct (captured_body_all_or_nothing demoValidateResponse marshal
                bad demoRouter None "getResource" ∅ eq_refl) as [_ [_ Hko]].
    destruct (Hko bodyError eq_refl) as [e [_ [Hv _]]].
    eexists _, e. split; [exact Hv | reflexivity].
Defined.


(** The file of the service. *)
Lemma response_validator_from_file_validates_requests_witness :
  demoReadFile "api.yaml" = inl (bytes_of_string "openapi: 3.0.0") /\
  demoLoadFromData (bytes_of_string "openapi: 3.0.0") = inl demoSwagger /\
  snd (OapiResponseValidatorFromYamlFile (answerRequest None) demoNewRouter demoReadFile
         demoLoadFromData marshal "api.yaml") =
    Ret (inl (requestValidator (answerRequest None) marshal demoRouter None)).
Proof.
  split; [reflexivity|]. split; [reflexivity|].
  destruct (response_validator_from_file_validates_requests
              demoValidateResponse (answerRequest None) demoNewRouter demoReadFile
              demoLoadFromData marshal "api.yaml" _ demoSwagger eq_refl eq_refl)
    as [_ [_ [_ Hrouter]]].
  exact (proj1 (Hrouter demoRouter eq_refl)).
Defined.

(** ** Where the stated claims fail *)

(** C1 as stated: the engine rejects the response, and with an
    [ErrorHandler] that writes nothing no body at all reaches the client. *)
Lemma rejected_response_without_error_body :
  let c := request "GET /resource" (Data 200 "application/json" (bytes_of_string badBody)) in
  responseVerdict demoValidateResponse c "getResource" ∅ (Some silentOptions) = Some bodyError /\
  ~ (exists c' errorBody,
       responseValidator demoValidateResponse marshal demoRouter (Some silentOptions) c
         = Ret c' /\
       In errorBody (http.writes (transport (Writer c')))).
Proof.
  intros c. split; [reflexivity|].
  intros [c' [errorBody [Hrun Hin]]].
  vm_compute in Hrun. inversion Hrun; subst c'. exact Hin.
Qed.


(** C5 as stated: for a router error that is not a [*routers.RouteError] the
    message is not the raw text of that error. *)
Lemma route_error_text_is_prefixed :
  let c := request "GET /resource" [] in
  FindRoute brokenRouter (Request c) = inr (foreignError "router unavailable" []) /\
  ~ (forall c' e,
       ValidateResponseFromContext demoValidateResponse c brokenRouter None
         = Ret (c', Some e) ->
       Error e = Error (foreignError "router unavailable" [])).
Proof.
  intros c. split; [reflexivity|].
  intros H. specialize (H _ _ eq_refl). discriminate H.
Qed.

(** C10 as stated: a document whose server list is empty, but not nil,
    makes the constructor warn. *)
Lemma empty_server_list_warns :
  let log := fst (OapiResponseValidatorWithOptions demoValidateResponse demoNewRouter
                    marshal emptyServersSwagger None) in
  Servers emptyServersSwagger = Some [] /\
  log = [responseServersWarning] /\
  ~ (log <> [] <->
     (exists server rest, Servers emptyServersSwagger = Some (server :: rest)) /\
     silenced noOptions = false).
Proof.
  intros log. split; [reflexivity|]. split; [reflexivity|].
  intros [Hwarn _].
  destruct Hwarn as [[server [rest Hservers]] _]; [discriminate | discriminate Hservers].
Qed.

(** ** Further properties on the service *)

Definition securityError : error :=
  SecurityRequirementsError
    ("security requirements failed: token missing" +:+ String LF "scheme: bearer") [].

(** gin's writer over a connection that is closed. *)
Definition brokenPipe : error := errorString "write: broken pipe".

Definition closedConnection : gin.responseWriter :=
  gin.reset (http.mkResponseWriter ∅ None [] (Some brokenPipe)).

Definition failingNewRouter (_ : @openapi3_T string unit) : @Router string string + error :=
  inr (errorString "invalid paths").

Definition failingLoadFromData (_ : bytes) : @openapi3_T string unit + error :=
  inr (errorString "yaml: did not find expected key").

(** A [MultiErrorHandler] that lets every aggregate pass. *)
Definition lenientOptions : @Options unit unit string :=
  mkOptions None tt None "hi!" (Some (fun _ => None)) false.

Definition timeout : list Call := Data 504 "text/plain" (bytes_of_string "Gateway Timeout").

Lemma security_error_keeps_full_text_witness :
  errors_As_MultiError securityError = None /\
  is_SecurityRequirementsError securityError = true /\
  exists c',
    ValidateResponseFromContext (answerResponse (Some securityError))
      (request "GET /resource" timeout) demoRouter None =
    Ret (c', Some (errorString
                     ("error in openapi3filter.SecurityRequirementsError: "
                        +:+ "security requirements failed: token missing"
                        +:+ String LF "scheme: bearer"))).
Proof.
  split; [reflexivity|]. split; [reflexivity|].
  destruct (security_error_keeps_full_text
              (answerResponse (Some securityError)) (answerRequest None)
              None securityError eq_refl eq_refl) as [Hrsp _].
  exact (Hrsp (request "GET /resource" timeout) demoRouter "getResource" ∅
           eq_refl eq_refl).
Defined.

Lemma unrouted_request_never_reaches_engine_witness :
  FindRoute demoRouter "GET /nothing" = inr (RouteError "no matching operation was found") /\
  ValidateResponseFromContext demoValidateResponse (request "GET /nothing" timeout)
    demoRouter None =
  ValidateResponseFromContext (answerResponse (Some bodyError)) (request "GET /nothing" timeout)
    demoRouter None.
Proof.
  split; [reflexivity|].
  exact (proj1 (unrouted_request_never_reaches_engine
                  demoValidateResponse (answerResponse (Some bodyError))
                  (answerRequest None) (answerRequest None)
                  (request "GET /nothing" timeout) demoRouter None)
           _ eq_refl).
Defined.

Lemma nil_from_MultiErrorHandler_drops_response_witness :
  let c := request "GET /resource" timeout in
  MultiErrorHandler lenientOptions = Some (fun _ => None) /\
  FindRoute demoRouter (Request c) = inl ("getResource", ∅) /\
  responseVerdict (answerResponse (Some aggregateError)) c "getResource" ∅
    (Some lenientOptions) = Some aggregateError /\
  exists c',
    responseValidator (answerResponse (Some aggregateError)) marshal demoRouter
      (Some lenientOptions) c = Ret c' /\
    http.writes (transport (Writer c')) = [] /\
    http.wroteHeader (transport (Writer c')) = None /\
    IsAborted c' = false.
Proof.
  intros c. split; [reflexivity|]. split; [reflexivity|]. split; [reflexivity|].
  destruct (nil_from_MultiErrorHandler_drops_response
              (answerResponse (Some aggregateError)) marshal
              c demoRouter lenientOptions (fun _ => None) "getResource" ∅ aggregateError _
              eq_refl eq_refl eq_refl eq_refl eq_refl) as [_ [Hrun _]].
  eexists. split; [exact Hrun|]. repeat split.
Defined.

Lemma rejection_aborts_without_custom_aggregate_handler_witness :
  let c := request "GET /resource" timeout in
  FindRoute demoRouter (Request c) = inl ("getResource", ∅) /\
  responseVerdict (answerResponse (Some aggregateError)) c "getResource" ∅ noOptions
    = Some aggregateError /\
  exists c'',
    responseValidator (answerResponse (Some aggregateError)) marshal demoRouter None c
      = Ret c'' /\
    IsAborted c'' = true.
Proof.
  intros c. split; [reflexivity|]. split; [reflexivity|].
  destruct (rejection_aborts_without_custom_aggregate_handler
              (answerResponse (Some aggregateError)) marshal
              c demoRouter None "getResource" ∅ aggregateError
              eq_refl eq_refl eq_refl) as [c' [e [c'' [_ [Hrun Hab]]]]].
  exists c''. split; [exact Hrun | exact Hab].
Defined.

Lemma write_failure_is_reported_into_buffer_witness :
  let c := mkContext "GET /resource" (ginWriter closedConnection) false timeout in
  let g := gin.mkResponseWriter
             (http.mkResponseWriter (<["Content-Type" := ["text/plain"]]> ∅) None []
                (Some brokenPipe))
             gin.noWritten 504 in
  FindRoute demoRouter (Request c) = inl ("getResource", ∅) /\
  responseVerdict demoValidateResponse c "getResource" ∅ noOptions = None /\
  serve (passed_through (pending c)) (Writer c) = ginWriter g /\
  http.fault (gin.ResponseWriter g) = Some brokenPipe /\
  exists c'',
    responseValidator demoValidateResponse marshal demoRouter None c = Ret c'' /\
    http.writes (transport (Writer c'')) = [] /\
    bw_body (Writer c'') =
      bytes_of_string "Gateway Timeout"
        ++ marshal [("error", "error writing response body: write: broken pipe")].
Proof.
  intros c g. split; [reflexivity|]. split; [reflexivity|]. split; [reflexivity|].
  split; [reflexivity|].
  destruct (write_failure_is_reported_into_buffer demoValidateResponse marshal
              c demoRouter None "getResource" ∅ g brokenPipe
              eq_refl eq_refl eq_refl eq_refl) as [c' [_ [_ [_ [_ Hmw]]]]].
  destruct (Hmw eq_refl) as [c'' [Hrun [_ [Hbody Hwire]]]].
  exists c''. split; [exact Hrun|]. split; [exact Hwire | exact Hbody].
Defined.

Lemma later_writes_stay_in_buffer_witness :
  let c := request "GET /resource" timeout in
  let later := [CallWrite (bytes_of_string "trailer")] in
  FindRoute demoRouter (Request c) = inl ("getResource", ∅) /\
  responseVerdict demoValidateResponse c "getResource" ∅ noOptions = None /\
  only_Write later = true /\
  exists c',
    responseValidator demoValidateResponse marshal demoRouter None c = Ret c' /\
    http.body (transport (Writer (run later c'))) = bytes_of_string "Gateway Timeout" /\
    bw_body (Writer (run later c')) = bytes_of_string "Gateway Timeouttrailer".
Proof.
  intros c later. split; [reflexivity|]. split; [reflexivity|]. split; [reflexivity|].
  assert (Hv : exists c', ValidateResponseFromContext demoValidateResponse c demoRouter None
                 = Ret (c', None)) by (eexists; reflexivity).
  destruct Hv as [c' Hv].
  destruct (later_writes_stay_in_buffer demoValidateResponse
              c demoRouter None "getResource" ∅ c' None later
              eq_refl eq_refl Hv eq_refl) as [_ [Hbody Hwire]].
  exists c'. split; [exact (responseValidator_passed _ _ _ _ _ _ Hv)|].
  rewrite Hwire, Hbody. inversion Hv. split; reflexivity.
Defined.

Lemma nested_interceptors_compose_witness :
  let c := mkContext "GET /resource"
             (responseInterceptor (ginWriter unsent) (bytes_of_string "outer:")) false timeout in
  Writer c = responseInterceptor (ginWriter unsent) (bytes_of_string "outer:") /\
  FindRoute demoRouter (Request c) = inl ("getResource", ∅) /\
  responseVerdict demoValidateResponse c "getResource" ∅ noOptions = None /\
  exists c',
    ValidateResponseFromContext demoValidateResponse c demoRouter None = Ret (c', None) /\
    bw_body (bw_ResponseWriter (Writer c')) = bytes_of_string "outer:Gateway Timeout" /\
    http.writes (transport (Writer c')) = [].
Proof.
  intros c. split; [reflexivity|]. split; [reflexivity|]. split; [reflexivity|].
  eexists. split.
  - exact (nested_interceptors_compose demoValidateResponse
             c demoRouter None "getResource" ∅ _ _ eq_refl eq_refl eq_refl).
  - split; reflexivity.
Defined.

Lemma WriteString_bypasses_validation_witness :
  let calls := [CallWriteHeader 200; CallWriteString "not validated"] in
  let c := request "GET /resource" calls in
  Writer c = ginWriter unsent /\
  http.fault (gin.ResponseWriter unsent) = None /\
  FindRoute demoRouter (Request c) = inl ("getResource", ∅) /\
  (exists err, responseVerdict demoValidateResponse c "getResource" ∅ noOptions = Some err) /\
  exists c' e,
    ValidateResponseFromContext demoValidateResponse c demoRouter None = Ret (c', e) /\
    http.writes (transport (Writer c')) = [bytes_of_string "not validated"].
Proof.
  intros calls c. split; [reflexivity|]. split; [reflexivity|]. split; [reflexivity|].
  split; [eexists; reflexivity|].
  destruct (WriteString_bypasses_validation demoValidateResponse
              c demoRouter None "getResource" ∅ unsent eq_refl eq_refl eq_refl)
    as [c' [e [Hv [Hrejected _]]]].
  exists c', e. split; [exact Hv|].
  exact (Hrejected _ eq_refl).
Defined.

Lemma sent_header_cannot_become_500_witness :
  let calls := [CallWriteHeader 200; CallFlush; CallWrite (bytes_of_string badBody)] in
  let c := request "GET /resource" calls in
  let g := gin.mkResponseWriter (http.mkResponseWriter ∅ (Some (200, ∅)) [] None) 0 200 in
  let c' := mkContext "GET /resource" (ginWriter g) false [] in
  let err := errorString
               "error in openapi3filter.ResponseError: response header Content-Type has unexpected value" in
  ValidateResponseFromContext demoValidateResponse c demoRouter None = Ret (c', Some err) /\
  errorHandler_of noOptions = None /\
  gin.Written g = true /\
  exists c'',
    responseValidator demoValidateResponse marshal demoRouter None c = Ret c'' /\
    IsAborted c'' = true /\
    Status (Writer c'') = 200 /\
    http.wroteHeader (transport (Writer c'')) = Some (200, ∅).
Proof.
  intros calls c g c' err.
  assert (Hv : ValidateResponseFromContext demoValidateResponse c demoRouter None
                 = Ret (c', Some err)) by reflexivity.
  split; [exact Hv|]. split; [reflexivity|]. split; [reflexivity|].
  exact (sent_header_cannot_become_500 demoValidateResponse marshal
           c demoRouter None c' err g (200, ∅) Hv eq_refl eq_refl eq_refl eq_refl).
Defined.

Lemma file_constructors_return_errors_witness :
  demoReadFile "missing.yaml" = inr (errorString "no such file or directory") /\
  OapiResponseValidatorFromYamlFile (answerRequest None) failingNewRouter demoReadFile
    demoLoadFromData marshal "missing.yaml" =
    ([], Ret (inr (errorString "error reading missing.yaml: no such file or directory"))) /\
  failingLoadFromData (bytes_of_string "openapi: 3.0.0") =
    inr (errorString "yaml: did not find expected key") /\
  OapiResponseValidatorFromYamlFile (answerRequest None) failingNewRouter demoReadFile
    failingLoadFromData marshal "api.yaml" =
    ([], Ret (inr (errorString
                     "error parsing api.yaml as Swagger YAML: yaml: did not find expected key"))).
Proof.
  split; [reflexivity|]. split.
  - exact (proj1 (proj1 (file_constructors_return_errors (answerRequest None)
                           failingNewRouter demoReadFile demoLoadFromData marshal
                           "missing.yaml") _ eq_refl)).
  - split; [reflexivity|].
    exact (proj1 (proj2 (file_constructors_return_errors (answerRequest None)
                           failingNewRouter demoReadFile failingLoadFromData marshal
                           "api.yaml") _ _ eq_refl eq_refl)).
Defined.

Lemma router_failure_panics_after_warning_witness :
  failingNewRouter emptyServersSwagger = inr (errorString "invalid paths") /\
  OapiResponseValidatorWithOptions demoValidateResponse failingNewRouter marshal
    emptyServersSwagger None = ([responseServersWarning], Panic "invalid paths").
Proof.
  split; [reflexivity|].
  exact (proj1 (router_failure_panics_after_warning demoValidateResponse (answerRequest None)
                  failingNewRouter demoReadFile demoLoadFromData marshal
                  emptyServersSwagger None _ eq_refl)).
Defined.

Lemma accepted_request_runs_handlers_unwrapped_witness :
  let calls := [CallWrite (bytes_of_string "Gateway "); CallWriteString "Timeout"] in
  let c := request "GET /resource" calls in
  getRequestValidationInput (Request c) demoRouter noOptions =
    inl (reqValidationInput_of "GET /resource" "getResource" ∅ noOptions) /\
  answerRequest None (getRequestContext c noOptions)
    (reqValidationInput_of "GET /resource" "getResource" ∅ noOptions) = None /\
  exists c',
    requestValidator (answerRequest None) marshal demoRouter None c = Ret c' /\
    http.body (transport (Writer c')) = bytes_of_string "Gateway Timeout".
Proof.
  intros calls c. split; [reflexivity|]. split; [reflexivity|].
  destruct (accepted_request_runs_handlers_unwrapped (answerRequest None) marshal
              c demoRouter None _ eq_refl eq_refl) as [_ [c' [Hrun [Hw _]]]].
  exists c'. split; [exact Hrun|]. rewrite Hw. reflexivity.
Defined.

(** The handler of the tests answers in JSON; the rejected response keeps
    that content type and a header of its own. *)
Lemma error_response_keeps_handler_headers_witness :
  let calls := [CallSetHeader (<["X-Request-Id" := ["42"]]>)]
                 ++ Data 200 "application/json" (bytes_of_string badBody) in
  let c := request "GET /resource" calls in
  let e := errorString
             "error in openapi3filter.ResponseError: response body doesn't match schema: value must be an integer" in
  Writer c = ginWriter unsent /\
  fresh unsent /\
  aborted c = false /\
  writes_only (handlers c) = true /\
  FindRoute demoRouter (Request c) = inl ("getResource", ∅) /\
  responseVerdict demoValidateResponse c "getResource" ∅ noOptions = Some bodyError /\
  responseError_of noOptions bodyError = Ret (Some e) /\
  errorHandler_of noOptions = None /\
  exists c'',
    responseValidator demoValidateResponse marshal demoRouter None c = Ret c'' /\
    http.wroteHeader (transport (Writer c'')) =
      Some (500, <["Content-Type" := ["application/json"]]>
                   (<["X-Request-Id" := ["42"]]> ∅)) /\
    http.writes (transport (Writer c'')) = [marshal [("error", Error e)]].
Proof.
  intros calls c e.
  assert (Hfresh : fresh unsent) by (repeat split).
  split; [reflexivity|]. split; [exact Hfresh|]. split; [reflexivity|].
  split; [reflexivity|]. split; [reflexivity|]. split; [reflexivity|].
  split; [reflexivity|]. split; [reflexivity|].
  exact (error_response_keeps_handler_headers demoValidateResponse marshal
           c demoRouter None "getResource" ∅ unsent bodyError e
           eq_refl Hfresh eq_refl eq_refl eq_refl eq_refl eq_refl eq_refl).
Defined.
